(** * VettedPulse dashboard: capacity accounting and tier admission

    A shallow embedding of the two classes that hold the dashboard's
    capacity state, [CapacityMonitor] and [TierManager], together with the
    properties their specification states about them.

    Conventions of the embedding.
    - Counters that the backend reports as whole numbers ([used], [limit],
      [available], click and sale counts, millisecond time stamps) are [Z].
    - A percentage is a JavaScript number.  It is modelled by [Js.number]:
      an exact rational, or one of [Infinity], [-Infinity], [NaN], which is
      what the division of two counters yields when the divisor is zero.
      Rounding of binary64 and the sign of zero are not modelled.
    - An object used as a dictionary in [for (... of Object.entries(o))] is
      the list of its entries in enumeration order.
    - A [Set] of strings is a [gset string], a [Map] with string keys a
      [gmap string _].
    - [null] and [undefined] are [None].
    - An [async] method is a computation over a world that holds the
      object's fields, the clock read by [Date.now()], and the replies the
      network will give to the coming [fetch] calls; it completes normally
      or by throwing. *)

From Stdlib Require Import ZArith QArith Qround Lia Lqa List.
From stdpp Require Import base option gmap strings pretty.

Open Scope string_scope.
Open Scope Z_scope.

(** ** JavaScript numbers, as far as the code uses them *)

Module Js.

Inductive number : Type :=
| Finite (q : Q)
| PosInfinity
| NegInfinity
| NaN.

Definition Qgtb (a b : Q) : bool := negb (Qle_bool a b).

(** [a / b] for two whole-number operands. *)
Definition div (a b : Z) : number :=
  if b =? 0 then
    if a =? 0 then NaN
    else if 0 <? a then PosInfinity else NegInfinity
  else Finite (inject_Z a / inject_Z b).

(** [x * k] for a non-zero finite literal [k]. *)
Definition mul (x : number) (k : Q) : number :=
  match x with
  | Finite q => Finite (q * k)
  | PosInfinity => if Qgtb k 0 then PosInfinity else NegInfinity
  | NegInfinity => if Qgtb k 0 then NegInfinity else PosInfinity
  | NaN => NaN
  end.

(** [x > k] for a finite literal [k]; every comparison with [NaN] is false. *)
Definition gt (x : number) (k : Q) : bool :=
  match x with
  | Finite q => Qgtb q k
  | PosInfinity => true
  | NegInfinity => false
  | NaN => false
  end.

(** [Math.round] on a finite number: the nearest integer, ties upward. *)
Definition round (q : Q) : Z := Qfloor (q + (1 # 2)).

(** The text of [${Math.round(x)}] in a template literal. *)
Definition roundToString (x : number) : string :=
  match x with
  | Finite q => pretty (round q)
  | PosInfinity => "Infinity"
  | NegInfinity => "-Infinity"
  | NaN => "NaN"
  end.

(** [v || fallback] where [fallback] is the falsy value of the type of
    [v] (0 for a number, [false] for a boolean): a value that is absent
    gives the fallback, and a falsy value that is there equals it. *)
Definition orElse {A : Type} (v : option A) (fallback : A) : A :=
  match v with
  | Some a => a
  | None => fallback
  end.

(** Truthiness of an optional string: [null], [undefined] and the empty
    string are falsy. *)
Definition truthy (s : option string) : bool :=
  match s with
  | Some s => negb (String.eqb s "")
  | None => false
  end.


End Js.

(** ** The capacity snapshot *)

Module Counter.
Record t : Type := mk { used : Z; limit : Z; remaining : Z }.
End Counter.

Module TierCapacity.
Record t : Type := mk { used : Z; limit : Z; available : Z; percentFull : Q }.
End TierCapacity.

Module Capacity.
Record t : Type := mk {
  clicks : Counter.t;
  sales : Counter.t;
  tiers : list (string * TierCapacity.t)
}.
End Capacity.

(** ** Replies of the backend *)

(** The object that [response.json()] resolves to.  One record covers the
    three endpoints; a field an endpoint does not send is absent. *)
Module Data.
Record t : Type := mk {
  success : bool;
  capacity : option Capacity.t;
  currentTier : option string;
  clicksToday : option Z;
  clicksLimit : option Z;
  clicksRemaining : option Z;
  salesToday : option Z;
  totalSales : option Z;
  progressToNext : option Q;
  nextTier : option string;
  commissionMultiplier : option Q;
  upgradeAvailable : option bool;
  newTier : option string;
  message : option string
}.
End Data.

(** How one [fetch] followed by [response.json()] ends. *)
Inductive FetchOutcome : Type :=
| NetworkError
| ParseError
| Json (data : Data.t).

(** ** Computations: state, clock, network, exceptions *)

Inductive Completion (A : Type) : Type :=
| Normal (a : A)
| Throw (error : string).
Arguments Normal {A} _.
Arguments Throw {A} _.

Module World.
Record t (S : Type) : Type := mk {
  self : S;
  clock : Z;
  network : list (Z * FetchOutcome)
}.
Arguments mk {S} _ _ _.
Arguments self {S} _.
Arguments clock {S} _.
Arguments network {S} _.
End World.

Definition Eff (S A : Type) : Type := World.t S -> Completion A * World.t S.

Section Effects.
Context {S : Type}.

Definition ret {A} (a : A) : Eff S A := fun w => (Normal a, w).

Definition bind {A B} (m : Eff S A) (k : A -> Eff S B) : Eff S B :=
  fun w =>
    match m w with
    | (Normal a, w') => k a w'
    | (Throw e, w') => (Throw e, w')
    end.

Definition throw {A} (e : string) : Eff S A := fun w => (Throw e, w).

(** [try { body } catch (error) { handler }] *)
Definition tryCatch {A} (body : Eff S A) (handler : string -> Eff S A) : Eff S A :=
  fun w =>
    match body w with
    | (Normal a, w') => (Normal a, w')
    | (Throw e, w') => handler e w'
    end.

(** [this] *)
Definition this : Eff S S := fun w => (Normal (World.self w), w).

Definition setThis (s : S) : Eff S unit :=
  fun w => (Normal tt, World.mk s (World.clock w) (World.network w)).

(** [Date.now()] *)
Definition dateNow : Eff S Z := fun w => (Normal (World.clock w), w).

(** [await fetch(url)] then [await response.json()]: the next reply of the
    network is consumed and the clock advances by the time it took.  No
    reply at all is a transport error. *)
Definition fetchJson : Eff S Data.t :=
  fun w =>
    match World.network w with
    | [] => (Throw "NetworkError", w)
    | (elapsed, outcome) :: rest =>
        let w' := World.mk (World.self w) (World.clock w + elapsed) rest in
        match outcome with
        | NetworkError => (Throw "NetworkError", w')
        | ParseError => (Throw "SyntaxError", w')
        | Json data => (Normal data, w')
        end
    end.

End Effects.

Notation "x <- m ;; k" := (bind m (fun x => k))
  (at level 100, m at next level, right associativity).
Notation "m ;;; k" := (bind m (fun _ => k))
  (at level 100, right associativity).

(** ** CapacityMonitor *)

Module Status.
Record t : Type := mk {
  status : string;
  color : string;
  message : string;
  percentage : option Js.number
}.
End Status.

Module Warning.
Record t : Type := mk {
  type : string;
  tier : option string;
  severity : string;
  message : string;
  persistent : bool
}.
End Warning.

(** [tiers[tierName]] on the tiers of a snapshot, given by their entries. *)
Fixpoint lookupTier (entries : list (string * TierCapacity.t))
    (tierName : string) : option TierCapacity.t :=
  match entries with
  | [] => None
  | (name, data) :: rest =>
      if String.eqb name tierName then Some data else lookupTier rest tierName
  end.

Module CapacityMonitor.

(** The fields of the object that the methods below read or write.
    [displayed] stands for the page: the warnings that were handed to
    [displayWarnings], oldest first. *)
Record t : Type := mk {
  currentCapacity : option Capacity.t;
  warningsShown : gset string;
  displayed : list Warning.t
}.

(** [new CapacityMonitor()], before the first fetch resolves. *)
Definition initial : t := mk None ∅ [].

(** [(this.currentCapacity.clicks.used / this.currentCapacity.clicks.limit) * 100] *)
Definition clickPercent (c : Capacity.t) : Js.number :=
  Js.mul (Js.div (Counter.used (Capacity.clicks c))
                 (Counter.limit (Capacity.clicks c))) 100.

Definition getCurrentCapacity (m : t) : option Capacity.t := currentCapacity m.

(** The message texts of [getSystemStatus], byte for byte as in the file. *)
Definition criticalMessage : string :=
  "âš ï¸ System near capacity - New signups paused".
Definition warningMessage : string :=
  "âš¡ High traffic - Performance may vary".
Definition healthyMessage : string :=
  "âœ… System operating normally".

Definition getSystemStatus (m : t) : Status.t :=
  match currentCapacity m with
  | None =>
      Status.mk "unknown" "gray" "Loading system status..." None
  | Some c =>
      let clickPercent := clickPercent c in
      if Js.gt clickPercent 95 then
        Status.mk "critical" "red" criticalMessage (Some clickPercent)
      else if Js.gt clickPercent 80 then
        Status.mk "warning" "yellow" warningMessage (Some clickPercent)
      else
        Status.mk "healthy" "green" healthyMessage (Some clickPercent)
  end.

(** The loop [for (const [tier, data] of Object.entries(tiers))
    if (data.percentFull > 95) return true;] : whether it returns. *)
Fixpoint anyTierOver95 (entries : list (string * TierCapacity.t)) : bool :=
  match entries with
  | [] => false
  | (_, data) :: rest =>
      if Js.Qgtb (TierCapacity.percentFull data) 95 then true
      else anyTierOver95 rest
  end.

Definition shouldPauseSignups (m : t) : bool :=
  match currentCapacity m with
  | None => false
  | Some c =>
      if anyTierOver95 (Capacity.tiers c) then true
      else Js.gt (clickPercent c) 90
  end.

(** The loop of [getRecommendedTier] over the remaining entries, with the
    current values of [bestTier] and [mostSpace]. *)
Fixpoint recommendLoop (entries : list (string * TierCapacity.t))
    (bestTier : string) (mostSpace : Z) : string :=
  match entries with
  | [] => bestTier
  | (tier, data) :: rest =>
      let space := TierCapacity.available data in
      if mostSpace <? space then recommendLoop rest tier space
      else recommendLoop rest bestTier mostSpace
  end.

Definition getRecommendedTier (m : t) : string :=
  match currentCapacity m with
  | None => "NEWBIE"
  | Some c => recommendLoop (Capacity.tiers c) "NEWBIE" 0
  end.

(** *** Warnings *)

Definition has (key : string) (shown : gset string) : bool :=
  bool_decide (key ∈ shown).

Definition key90 (tier : string) : string := "tier_" +:+ tier +:+ "_90".
Definition key98 (tier : string) : string := "tier_" +:+ tier +:+ "_98".

Definition clicksWarning (clickPercent : Js.number) : Warning.t :=
  Warning.mk "clicks" None "warning"
    ("System at " +:+ Js.roundToString clickPercent +:+
     "% of daily click capacity")
    true.

Definition clicksCritical : Warning.t :=
  Warning.mk "clicks" None "critical"
    "âš ï¸ CRITICAL: System approaching maximum click capacity!"
    true.

Definition tierWarning (tier : string) (data : TierCapacity.t) : Warning.t :=
  Warning.mk "tier" (Some tier) "warning"
    (tier +:+ " tier is " +:+ pretty (Js.round (TierCapacity.percentFull data)) +:+
     "% full (" +:+ pretty (TierCapacity.available data) +:+ " spots left)")
    false.

Definition tierCritical (tier : string) (data : TierCapacity.t) : Warning.t :=
  Warning.mk "tier" (Some tier) "critical"
    ("ðŸ”¥ " +:+ tier +:+ " tier nearly full! Only " +:+
     pretty (TierCapacity.available data) +:+ " spots left!")
    true.

(** One rule: [if (cond && !this.warningsShown.has(key))
    { warnings.push(w); this.warningsShown.add(key); }], acting on the
    local array [warnings] and the field [warningsShown]. *)
Definition rule (cond : bool) (key : string) (w : Warning.t)
    (acc : list Warning.t * gset string) : list Warning.t * gset string :=
  let '(warnings, shown) := acc in
  if cond && negb (has key shown)
  then ((warnings ++ [w])%list, {[key]} ∪ shown)
  else (warnings, shown).

(** The body of the loop over the tiers. *)
Definition tierRules (entry : string * TierCapacity.t)
    (acc : list Warning.t * gset string) : list Warning.t * gset string :=
  let '(tier, data) := entry in
  let acc := rule (Js.Qgtb (TierCapacity.percentFull data) 90)
                  (key90 tier) (tierWarning tier data) acc in
  rule (Js.Qgtb (TierCapacity.percentFull data) 98)
       (key98 tier) (tierCritical tier data) acc.

(** [checkWarnings] up to the call of [displayWarnings]: the array
    [warnings] it has built and the new value of [warningsShown]. *)
Definition collectWarnings (c : Capacity.t) (shown : gset string)
    : list Warning.t * gset string :=
  let clickPercent := clickPercent c in
  let acc := ([], shown) in
  let acc := rule (Js.gt clickPercent 80) "clicks_80"
                  (clicksWarning clickPercent) acc in
  let acc := rule (Js.gt clickPercent 95) "clicks_95" clicksCritical acc in
  fold_left (fun acc entry => tierRules entry acc) (Capacity.tiers c) acc.

(** [displayWarnings(warnings)]: the warnings are recorded as handed to
    the page, in order.  Whether the page has the element that shows them,
    and the timers that remove them, are not modelled. *)
Definition displayWarnings (warnings : list Warning.t) (m : t) : t :=
  mk (currentCapacity m) (warningsShown m) (displayed m ++ warnings)%list.

Definition checkWarnings (m : t) : t :=
  match currentCapacity m with
  | None => m
  | Some c =>
      let '(warnings, shown) := collectWarnings c (warningsShown m) in
      let m := mk (currentCapacity m) shown (displayed m) in
      if 0 <? Z.of_nat (length warnings) then displayWarnings warnings m
      else m
  end.

Definition resetWarnings (m : t) : t :=
  mk (currentCapacity m) ∅ (displayed m).

Definition fetchCapacity : Eff t (option Capacity.t) :=
  tryCatch
    (data <- fetchJson ;;
     if Data.success data then
       m <- this ;;
       setThis (mk (Data.capacity data) (warningsShown m) (displayed m)) ;;;
       m <- this ;;
       setThis (checkWarnings m) ;;;
       ret (Data.capacity data)
     else ret None)
    (fun error => ret None).

(** *** Further queries *)

(** [this.currentCapacity.tiers[tierName]] for a tier the snapshot lists;
    a tier it does not list gives the default. *)
Definition getTierCapacity (m : t) (tierName : string) : TierCapacity.t :=
  match currentCapacity m with
  | None => TierCapacity.mk 0 0 0 0
  | Some c =>
      match lookupTier (Capacity.tiers c) tierName with
      | None => TierCapacity.mk 0 0 0 0
      | Some data => data
      end
  end.


End CapacityMonitor.

(** ** Static configuration: [CONFIG.TIERS] *)

Module TierDefinition.
Record t : Type := mk {
  name : string;
  color : string;
  maxAffiliates : Z;
  perAffiliateClickLimit : Z;
  monthlyFee : Z;
  commissionMultiplier : Q;
  salesRequiredForUpgrade : option Z;
  priority : Z
}.
End TierDefinition.

Module CONFIG.

Definition NEWBIE : TierDefinition.t :=
  TierDefinition.mk "Newbie" "#808080" 2000 5 0 1 (Some 10) 1.
Definition ACTIVE : TierDefinition.t :=
  TierDefinition.mk "Active" "#FFD700" 400 50 29 (115 # 100) (Some 50) 2.
Definition PRO : TierDefinition.t :=
  TierDefinition.mk "Pro" "#FFF44F" 90 200 99 (125 # 100) (Some 200) 3.
Definition ELITE : TierDefinition.t :=
  TierDefinition.mk "Elite" "#28A745" 10 500 299 (15 # 10) None 4.

(** The entries of [CONFIG.TIERS] in the order they are declared. *)
Definition TIERS : list (string * TierDefinition.t) :=
  [("NEWBIE", NEWBIE); ("ACTIVE", ACTIVE); ("PRO", PRO); ("ELITE", ELITE)].

End CONFIG.

(** [object[key]] on an object given by its entries. *)
Fixpoint property {V : Type} (entries : list (string * V)) (key : string)
    : option V :=
  match entries with
  | [] => None
  | (k, v) :: rest => if String.eqb k key then Some v else property rest key
  end.

(** [object[key]] when the key itself may be [undefined]. *)
Definition propertyOpt {V : Type} (entries : list (string * V))
    (key : option string) : option V :=
  match key with
  | Some k => property entries k
  | None => None
  end.

(** ** TierManager *)

Module TierData.
Record t : Type := mk {
  tier : option string;
  tierInfo : TierDefinition.t;
  clicksToday : Z;
  clicksLimit : Z;
  clicksRemaining : Z;
  salesToday : Z;
  totalSales : Z;
  tierProgress : Q;
  nextTier : option string;
  commissionMultiplier : Q;
  upgradeAvailable : bool
}.
End TierData.

(** What the cache holds: tier status under the keys [tier_<id>], one
    tier's capacity under the keys [capacity_<tier>]. *)
Inductive CacheValue : Type :=
| TierValue (tierData : TierData.t)
| CapacityValue (capacity : TierCapacity.t).

Module CacheEntry.
Record t : Type := mk { value : CacheValue; expiry : Z }.
End CacheEntry.

(** The result of [isActionAllowed]. *)
Module Decision.
Record t : Type := mk {
  allowed : bool;
  reason : option string;
  current : option Z;
  limit : option Z;
  remaining : option Z
}.
End Decision.

(** The result of [canUpgrade]. *)
Module Eligibility.
Record t : Type := mk {
  canUpgrade : bool;
  reason : option string;
  waitlist : option bool;
  currentTier : option string;
  nextTier : option string;
  required : option Z;
  current : option Z;
  remaining : option Z
}.
End Eligibility.

(** The result of [requestUpgrade]. *)
Module UpgradeResult.
Record t : Type := mk {
  success : bool;
  newTier : option string;
  message : option string
}.
End UpgradeResult.

(** The result of [getAvailableTier]. *)
Module TierAssignment.
Record t : Type := mk {
  tier : string;
  info : option TierDefinition.t;
  capacity : TierCapacity.t
}.
End TierAssignment.

(** [array.indexOf(x)] on an array of strings: the first index that holds
    [x], or -1. *)
Fixpoint indexOfFrom (l : list string) (x : string) (i : Z) : Z :=
  match l with
  | [] => -1
  | y :: rest => if String.eqb y x then i else indexOfFrom rest x (i + 1)
  end.

Definition indexOf (l : list string) (x : string) : Z := indexOfFrom l x 0.

Module TierManager.

Record t : Type := mk {
  currentAffiliateId : option string;
  cache : gmap string CacheEntry.t;
  cacheTTL : Z
}.

(** [new TierManager()] for the affiliate id found in local storage. *)
Definition create (affiliateID : option string) : t := mk affiliateID ∅ 300000.

(** A parameter with a default value: the default is taken when the
    argument is left out.  Also used to read the text of a string that was
    tested to be truthy, where the default is never taken. *)
Definition orDefault {A : Type} (argument : option A) (default : A) : A :=
  match argument with
  | Some a => a
  | None => default
  end.

(** The parameter [affiliateId = this.currentAffiliateId]: [None] is a call
    that leaves the argument out. *)
Definition orCurrent (affiliateId current : option string) : option string :=
  match affiliateId with
  | Some a => Some a
  | None => current
  end.

(** [ToNumber] of a value that is a whole number or [null]. *)
Definition toNumber (v : option Z) : Z :=
  match v with
  | Some z => z
  | None => 0
  end.

(** *** Cache management *)

Definition getCached (key : string) : Eff t (option CacheValue) :=
  m <- this ;;
  match cache m !! key with
  | Some entry =>
      now <- dateNow ;;
      if now <? CacheEntry.expiry entry then
        ret (Some (CacheEntry.value entry))
      else
        (setThis (mk (currentAffiliateId m) (delete key (cache m)) (cacheTTL m)) ;;;
         ret None)
  | None => ret None
  end.

Definition setCached (key : string) (value : CacheValue) (ttl : option Z)
    : Eff t unit :=
  m <- this ;;
  let ttl := orDefault ttl (cacheTTL m) in
  now <- dateNow ;;
  setThis (mk (currentAffiliateId m)
              (<[key := CacheEntry.mk value (now + ttl)]> (cache m))
              (cacheTTL m)).

Definition clearCache : Eff t unit :=
  m <- this ;;
  setThis (mk (currentAffiliateId m) ∅ (cacheTTL m)).

(** *** Tier data *)

(** The object literal [tierData] built from a successful reply. *)
Definition tierDataOf (data : Data.t) : TierData.t :=
  TierData.mk
    (Data.currentTier data)
    (match propertyOpt CONFIG.TIERS (Data.currentTier data) with
     | Some tierInfo => tierInfo
     | None => CONFIG.NEWBIE
     end)
    (Js.orElse (Data.clicksToday data) 0)
    (Js.orElse (Data.clicksLimit data) 0)
    (Js.orElse (Data.clicksRemaining data) 0)
    (Js.orElse (Data.salesToday data) 0)
    (Js.orElse (Data.totalSales data) 0)
    (Js.orElse (Data.progressToNext data) 0%Q)
    (Data.nextTier data)
    (match Data.commissionMultiplier data with
     | Some q => if Qeq_bool q 0 then 1%Q else q
     | None => 1%Q
     end)
    (Js.orElse (Data.upgradeAvailable data) false).

(** An entry written under a [tier_] key is tier status ([getCurrentTier]
    is the only writer of these keys), so the other case of a hit does not
    arise; it is read as a miss. *)
Definition getCurrentTier (affiliateId : option string)
    : Eff t (option TierData.t) :=
  m <- this ;;
  let affiliateId := orCurrent affiliateId (currentAffiliateId m) in
  if negb (Js.truthy affiliateId) then ret None
  else
    let cacheKey := "tier_" +:+ orDefault affiliateId "" in
    cached <- getCached cacheKey ;;
    match cached with
    | Some (TierValue cached) => ret (Some cached)
    | _ =>
        tryCatch
          (data <- fetchJson ;;
           if Data.success data then
             let tierData := tierDataOf data in
             setCached cacheKey (TierValue tierData) None ;;;
             ret (Some tierData)
           else ret None)
          (fun error => ret None)
    end.

Definition isActionAllowed (action : string) (affiliateId : option string)
    : Eff t Decision.t :=
  tier <- getCurrentTier affiliateId ;;
  match tier with
  | None =>
      ret (Decision.mk false (Some "Unable to verify tier") None None None)
  | Some tier =>
      if String.eqb action "click" then
        if TierData.clicksRemaining tier <=? 0 then
          ret (Decision.mk false (Some "Daily click limit reached")
                 (Some (TierData.clicksToday tier))
                 (Some (TierData.clicksLimit tier))
                 (Some 0))
        else
          ret (Decision.mk true None
                 (Some (TierData.clicksToday tier))
                 (Some (TierData.clicksLimit tier))
                 (Some (TierData.clicksRemaining tier)))
      else if String.eqb action "sale" then
        ret (Decision.mk true None None None None)
      else
        ret (Decision.mk true None None None None)
  end.

(** *** Tier capacity *)

(** The default [{ used: 0, limit: 0, available: 0 }]; it has no
    [percentFull], which no caller of [checkTierCapacity] reads. *)
Definition noCapacity : TierCapacity.t := TierCapacity.mk 0 0 0 0.

(** As for [getCurrentTier], an entry under a [capacity_] key is a tier
    capacity. *)
Definition checkTierCapacity (tierName : string) : Eff t TierCapacity.t :=
  let cacheKey := "capacity_" +:+ tierName in
  cached <- getCached cacheKey ;;
  match cached with
  | Some (CapacityValue cached) => ret cached
  | _ =>
      tryCatch
        (data <- fetchJson ;;
         if Data.success data then
           match Data.capacity data with
           | None => throw "TypeError"
           | Some capacity =>
               match property (Capacity.tiers capacity) tierName with
               | Some capacity =>
                   setCached cacheKey (CapacityValue capacity) (Some 60000) ;;;
                   ret capacity
               | None => ret noCapacity
               end
           end
         else ret noCapacity)
        (fun error => ret noCapacity)
  end.

Definition getAllTierCapacities : Eff t (list (string * TierCapacity.t)) :=
  tryCatch
    (data <- fetchJson ;;
     if Data.success data then
       match Data.capacity data with
       | None => throw "TypeError"
       | Some capacity => ret (Capacity.tiers capacity)
       end
     else ret [])
    (fun error => ret []).

(** The loop of [getAvailableTier] over the remaining entries. *)
Fixpoint firstAvailable (entries : list (string * TierCapacity.t))
    : option TierAssignment.t :=
  match entries with
  | [] => None
  | (tierName, capacity) :: rest =>
      if 0 <? TierCapacity.available capacity then
        Some (TierAssignment.mk tierName (property CONFIG.TIERS tierName) capacity)
      else firstAvailable rest
  end.

Definition getAvailableTier : Eff t (option TierAssignment.t) :=
  capacities <- getAllTierCapacities ;;
  ret (firstAvailable capacities).

(** *** Upgrades *)

Definition canUpgrade (affiliateId : option string) : Eff t Eligibility.t :=
  tier <- getCurrentTier affiliateId ;;
  match tier with
  | None =>
      ret (Eligibility.mk false (Some "Already at max tier")
             None None None None None None)
  | Some tier =>
      if negb (Js.truthy (TierData.nextTier tier)) then
        ret (Eligibility.mk false (Some "Already at max tier")
               None None None None None None)
      else
        let nextTier := orDefault (TierData.nextTier tier) "" in
        let required := TierDefinition.salesRequiredForUpgrade (TierData.tierInfo tier) in
        if toNumber required <=? TierData.totalSales tier then
          capacity <- checkTierCapacity nextTier ;;
          if 0 <? TierCapacity.available capacity then
            ret (Eligibility.mk true None None
                   (TierData.tier tier) (Some nextTier)
                   required (Some (TierData.totalSales tier)) None)
          else
            ret (Eligibility.mk false
                   (Some (nextTier +:+ " tier is currently full"))
                   (Some true) None None None None None)
        else
          ret (Eligibility.mk false
                 (Some ("Need " +:+
                        pretty (toNumber required - TierData.totalSales tier) +:+
                        " more sales"))
                 None None None
                 required (Some (TierData.totalSales tier))
                 (Some (toNumber required - TierData.totalSales tier)))
  end.

Definition requestUpgrade (affiliateId : option string)
    : Eff t UpgradeResult.t :=
  canUpgrade <- canUpgrade affiliateId ;;
  if negb (Eligibility.canUpgrade canUpgrade) then
    ret (UpgradeResult.mk false None (Eligibility.reason canUpgrade))
  else
    tryCatch
      (data <- fetchJson ;;
       if Data.success data then
         clearCache ;;;
         ret (UpgradeResult.mk true (Data.newTier data)
                (Some ("Congratulations! You've been upgraded to " +:+
                       orDefault (Data.newTier data) "undefined")))
       else
         ret (UpgradeResult.mk false None
                (Some (if Js.truthy (Data.message data)
                       then orDefault (Data.message data) ""
                       else "Upgrade failed"))))
      (fun error => ret (UpgradeResult.mk false None (Some "Network error"))).

(** *** Remaining clicks, progress and order of the tiers *)

Definition getRemainingClicks (affiliateId : option string) : Eff t Z :=
  result <- isActionAllowed "click" affiliateId ;;
  ret (Js.orElse (Decision.remaining result) 0).

(** [!tier.salesRequiredForUpgrade]: [null] and 0 are falsy. *)
Definition noUpgradeRequirement (required : option Z) : bool :=
  match required with
  | Some r => r =? 0
  | None => true
  end.


Definition tierOrder : list string := ["NEWBIE"; "ACTIVE"; "PRO"; "ELITE"].

Definition getNextTier (currentTier : string) : option string :=
  let currentIndex := indexOf tierOrder currentTier in
  if (0 <=? currentIndex) && (currentIndex <? Z.of_nat (length tierOrder) - 1)
  then tierOrder !! Z.to_nat (currentIndex + 1)
  else None.

End TierManager.

(** ** Auth: the limit on login attempts *)

(** [CONFIG.SECURITY], the two settings the limiter reads. *)
Module SECURITY.
Definition maxLoginAttempts : Z := 5.
Definition rateLimitWindow : Z := 15 * 60 * 1000.
End SECURITY.

Module Auth.

(** The field of the object that the limiter reads and writes: for each
    email the times of its recorded attempts, oldest first. *)
Record t : Type := mk {
  loginAttempts : gmap string (list Z)
}.

(** [new Auth()] *)
Definition create : t := mk ∅.

(** [this.loginAttempts.get(email) || []] *)
Definition attemptsOf (a : t) (email : string) : list Z :=
  match loginAttempts a !! email with
  | Some attempts => attempts
  | None => []
  end.

Definition checkRateLimit (email : string) : Eff t bool :=
  now <- dateNow ;;
  a <- this ;;
  let attempts := attemptsOf a email in
  let recentAttempts :=
    filter (fun timestamp => now - timestamp < SECURITY.rateLimitWindow)
      attempts in
  setThis (mk (<[email := recentAttempts]> (loginAttempts a))) ;;;
  ret (Z.of_nat (length recentAttempts) <? SECURITY.maxLoginAttempts).

Definition recordLoginAttempt (email : string) : Eff t unit :=
  a <- this ;;
  let attempts := attemptsOf a email in
  now <- dateNow ;;
  let attempts := (attempts ++ [now])%list in
  setThis (mk (<[email := attempts]> (loginAttempts a))).

End Auth.

(** * Terms in which the properties are stated *)

Section MonitorQueriesTerms.
Import CapacityMonitor.

(** A monitor that holds the snapshot [c]. *)
Definition holding (c : Capacity.t) (m : t) : Prop :=
  currentCapacity m = Some c.

(** The [available] of an entry of the snapshot's tiers. *)
Definition availableOfEntry (entry : string * TierCapacity.t) : Z :=
  TierCapacity.available (snd entry).

(** The recommendation as the specification words it: the tiers are
    taken in the order of [CONFIG.TIERS], a tier missing from the snapshot
    counts as having nothing available ([specAvailable]), and a later tier
    wins only with strictly more available than the best so far
    ([specLargest]). *)
Definition specAvailable (entries : list (string * TierCapacity.t))
    (tier : string) : Z :=
  match property entries tier with
  | Some data => TierCapacity.available data
  | None => 0
  end.

Fixpoint specLargest (entries : list (string * TierCapacity.t))
    (names : list string) (best : string) : string :=
  match names with
  | [] => best
  | candidate :: rest =>
      specLargest entries rest
        (if specAvailable entries best <? specAvailable entries candidate
         then candidate else best)
  end.

Definition specRecommendedTier (entries : list (string * TierCapacity.t))
    : string :=
  match map fst CONFIG.TIERS with
  | [] => "NEWBIE"
  | lowest :: higher => specLargest entries higher lowest
  end.

(** A snapshot that lists the four configured tiers in configured order. *)
Definition inConfigOrder (newbie active pro elite : TierCapacity.t)
    : list (string * TierCapacity.t) :=
  [("NEWBIE", newbie); ("ACTIVE", active); ("PRO", pro); ("ELITE", elite)].

End MonitorQueriesTerms.

(** A snapshot in which two tiers tie, listed PRO before ACTIVE. *)
Definition tiedSnapshot : Capacity.t :=
  Capacity.mk (Counter.mk 1000 5000 4000) (Counter.mk 10 500 490)
    [("PRO", TierCapacity.mk 40 90 50 (400 # 9));
     ("ACTIVE", TierCapacity.mk 350 400 50 (875 # 10))].

Section MonitorWarningsTerms.
Import CapacityMonitor.

(** The key under which a warning object was recorded, read off the
    object: the click rules leave [tier] out, the tier rules set it, and
    the severity tells the lower threshold from the higher. *)
Definition thresholdKey (w : Warning.t) : string :=
  match Warning.tier w with
  | None =>
      if String.eqb (Warning.severity w) "warning"
      then "clicks_80" else "clicks_95"
  | Some tier =>
      if String.eqb (Warning.severity w) "warning"
      then key90 tier else key98 tier
  end.

Definition keysOf (ws : list Warning.t) : list string := map thresholdKey ws.

(** The rules of [checkWarnings] in the order they are evaluated, each as
    its condition, its key and the warning it would push. *)
Definition Rule : Type := bool * string * Warning.t.

Definition tierRuleList (entry : string * TierCapacity.t) : list Rule :=
  let '(tier, data) := entry in
  [(Js.Qgtb (TierCapacity.percentFull data) 90, key90 tier, tierWarning tier data);
   (Js.Qgtb (TierCapacity.percentFull data) 98, key98 tier, tierCritical tier data)].

Definition rulesOf (c : Capacity.t) : list Rule :=
  [(Js.gt (clickPercent c) 80, "clicks_80", clicksWarning (clickPercent c));
   (Js.gt (clickPercent c) 95, "clicks_95", clicksCritical)]
  ++ flat_map tierRuleList (Capacity.tiers c).

Definition applyRule (acc : list Warning.t * gset string) (r : Rule)
    : list Warning.t * gset string :=
  let '(cond, key, w) := r in rule cond key w acc.

Definition keyed (r : Rule) : Prop :=
  let '(_, key, w) := r in thresholdKey w = key.

(** The thresholds a snapshot exceeds, by key. *)
Definition crossed (c : Capacity.t) (k : string) : Prop :=
  (k = "clicks_80" /\ Js.gt (clickPercent c) 80 = true)
  \/ (k = "clicks_95" /\ Js.gt (clickPercent c) 95 = true)
  \/ exists tier data,
       In (tier, data) (Capacity.tiers c)
       /\ ((k = key90 tier /\ (90 < TierCapacity.percentFull data)%Q)
           \/ (k = key98 tier /\ (98 < TierCapacity.percentFull data)%Q)).

End MonitorWarningsTerms.

Section FetchesTerms.
Context {S : Type}.

(** A reply that the methods treat as a failed fetch: a transport error,
    a body that is not JSON, or [success: false]. *)
Definition failed (outcome : FetchOutcome) : bool :=
  match outcome with
  | NetworkError | ParseError => true
  | Json data => negb (Data.success data)
  end.

(** The next [fetch] of the world fails. *)
Definition fetchFails (w : World.t S) : Prop :=
  match World.network w with
  | [] => True
  | (_, outcome) :: _ => failed outcome = true
  end.

(** The world once the next reply has arrived. *)
Definition consumed (w : World.t S) : World.t S :=
  match World.network w with
  | [] => w
  | (elapsed, _) :: rest =>
      World.mk (World.self w) (World.clock w + elapsed) rest
  end.

End FetchesTerms.

Section MonitorRunsTerms.
Import CapacityMonitor.

(** The calls that concern the warnings: a refresh, which evaluates the
    rules on the snapshot it fetched, and an explicit reset. *)
Inductive Call : Type :=
| Refresh
| Reset.

Definition call (w : World.t CapacityMonitor.t) (c : Call)
    : World.t CapacityMonitor.t :=
  match c with
  | Refresh => snd (fetchCapacity w)
  | Reset =>
      World.mk (resetWarnings (World.self w)) (World.clock w) (World.network w)
  end.

Definition run (calls : list Call) (w : World.t CapacityMonitor.t)
    : World.t CapacityMonitor.t :=
  fold_left call calls w.

(** What a stretch of calls adds to the page and to the recorded keys. *)
Definition adds (new : list Warning.t) (m m' : CapacityMonitor.t) : Prop :=
  displayed m' = (displayed m ++ new)%list
  /\ warningsShown m' = warningsShown m ∪ list_to_set (keysOf new)
  /\ NoDup (keysOf new)
  /\ (forall k, k ∈ keysOf new -> k ∉ warningsShown m).

End MonitorRunsTerms.

(** The scenario of the specification: clicks at 4100 of 5000, PRO at 89
    of 90. *)
Definition scenarioSnapshot : Capacity.t :=
  Capacity.mk (Counter.mk 4100 5000 900) (Counter.mk 0 500 500)
    [("PRO", TierCapacity.mk 89 90 1 (989 # 10))].

(** A fresh monitor whose first fetch brings the scenario's snapshot. *)
Definition scenarioWorld : World.t CapacityMonitor.t :=
  World.mk CapacityMonitor.initial 0
    [(120, Json (Data.mk true (Some scenarioSnapshot) None None None None
                   None None None None None None None None))].

(** A monitor that holds a snapshot with the given click counters and no
    tiers. *)
Definition clicksAt (used limit : Z) : CapacityMonitor.t :=
  CapacityMonitor.mk
    (Some (Capacity.mk (Counter.mk used limit (limit - used))
             (Counter.mk 0 500 500) []))
    ∅ [].

(** A snapshot below every threshold. *)
Definition dipSnapshot : Capacity.t :=
  Capacity.mk (Counter.mk 1000 5000 4000) (Counter.mk 0 500 500)
    [("PRO", TierCapacity.mk 45 90 45 50)].

(** The reply that carries the snapshot [c], after 100 ms. *)
Definition reply (c : Capacity.t) : Z * FetchOutcome :=
  (100, Json (Data.mk true (Some c) None None None None
                None None None None None None None None)).

Section TotalityTerms.
Context {S : Type}.

(** [m] completes normally from every world. *)
Definition total {A : Type} (m : Eff S A) : Prop :=
  forall w, exists a w', m w = (Normal a, w').

End TotalityTerms.

Section ManagerCacheTerms.
Import TierManager.

(** The manager with another cache, the world with another manager. *)
Definition withCache (m : TierManager.t) (c : gmap string CacheEntry.t)
    : TierManager.t :=
  TierManager.mk (currentAffiliateId m) c (cacheTTL m).

Definition withSelf (w : World.t TierManager.t) (m : TierManager.t)
    : World.t TierManager.t :=
  World.mk m (World.clock w) (World.network w).

(** What a read of [key] finds: the value of an entry that has not
    expired. *)
Definition fresh (key : string) (w : World.t TierManager.t)
    : option CacheValue :=
  match cache (World.self w) !! key with
  | Some entry =>
      if World.clock w <? CacheEntry.expiry entry
      then Some (CacheEntry.value entry) else None
  | None => None
  end.

(** The world after a read of [key]: an expired entry is gone. *)
Definition evicted (key : string) (w : World.t TierManager.t)
    : World.t TierManager.t :=
  match cache (World.self w) !! key with
  | Some entry =>
      if World.clock w <? CacheEntry.expiry entry then w
      else withSelf w (withCache (World.self w) (delete key (cache (World.self w))))
  | None => w
  end.

End ManagerCacheTerms.

Section ManagerAdmissionTerms.
Import TierManager.

(** The affiliate's tier status is known: [getCurrentTier] resolves to
    the object [tier]. *)
Definition tierKnown (affiliateId : option string) (w : World.t TierManager.t)
    (tier : TierData.t) : Prop :=
  fst (getCurrentTier affiliateId w) = Normal (Some tier).

(** The last character of a string. *)
Fixpoint lastChar (s : string) : option Ascii.ascii :=
  match s with
  | EmptyString => None
  | String c EmptyString => Some c
  | String _ rest => lastChar rest
  end.

End ManagerAdmissionTerms.

Section ManagerSignupTerms.
Import TierManager.

(** The rule as the specification words it: the first tier, in the order
    of [CONFIG.TIERS], that has something available. *)
Definition specAvailableTier (entries : list (string * TierCapacity.t))
    : option string :=
  find (fun tier => 0 <? specAvailable entries tier) (map fst CONFIG.TIERS).

(** The tier named by the result of [getAvailableTier]. *)
Definition assignedTier (result : Completion (option TierAssignment.t))
    : option string :=
  match result with
  | Normal (Some assignment) => Some (TierAssignment.tier assignment)
  | _ => None
  end.

End ManagerSignupTerms.

(** A reply that lists ELITE before NEWBIE, both with room. *)
Definition eliteFirstSnapshot : Capacity.t :=
  Capacity.mk (Counter.mk 1000 5000 4000) (Counter.mk 10 500 490)
    [("ELITE", TierCapacity.mk 8 10 2 80);
     ("NEWBIE", TierCapacity.mk 1500 2000 500 75)].

(** A manager whose capacity fetch brings that reply. *)
Definition eliteFirstWorld : World.t TierManager.t :=
  World.mk (TierManager.create (Some "AFF001")) 1000
    [(80, Json (Data.mk true (Some eliteFirstSnapshot) None None None None
                  None None None None None None None None))].

Section FailureSemanticsTerms.
Import TierManager.

(** The affiliate a call is about, and the cache keys of the manager. *)
Definition effectiveId (affiliateId : option string)
    (w : World.t TierManager.t) : option string :=
  orCurrent affiliateId (currentAffiliateId (World.self w)).

Definition tierKey (affiliateId : option string) (w : World.t TierManager.t)
    : string :=
  "tier_" +:+ orDefault (effectiveId affiliateId w) "".

Definition capacityKey (tierName : string) : string :=
  "capacity_" +:+ tierName.

(** The fetch of [getCurrentTier], stored under [cacheKey]. *)
Definition fetchTierStatus (cacheKey : string)
    : Eff TierManager.t (option TierData.t) :=
  tryCatch
    (data <- fetchJson ;;
     if Data.success data then
       let tierData := tierDataOf data in
       setCached cacheKey (TierValue tierData) None ;;;
       ret (Some tierData)
     else ret None)
    (fun error => ret None).

End FailureSemanticsTerms.

(** A monitor that holds the scenario's snapshot and has shown nothing. *)
Definition scenarioMonitor : CapacityMonitor.t :=
  CapacityMonitor.mk (Some scenarioSnapshot) ∅ [].

(** A manager with an empty cache at time 0. *)
Definition cacheWorld : World.t TierManager.t :=
  World.mk (TierManager.create (Some "AFF001")) 0 [].

(** An ACTIVE affiliate with 60 sales and no clicks left. *)
Definition activeStatus : Data.t :=
  Data.mk true None (Some "ACTIVE") (Some 50) (Some 50) (Some 0) (Some 2)
    (Some 60) (Some 100%Q) (Some "PRO") (Some (115 # 100)) (Some false)
    None None.

(** PRO with nothing available. *)
Definition proFullSnapshot : Capacity.t :=
  Capacity.mk (Counter.mk 1000 5000 4000) (Counter.mk 10 500 490)
    [("NEWBIE", TierCapacity.mk 1500 2000 500 75);
     ("ACTIVE", TierCapacity.mk 350 400 50 (875 # 10));
     ("PRO", TierCapacity.mk 90 90 0 100);
     ("ELITE", TierCapacity.mk 8 10 2 80)].

(** The manager of that affiliate: the status is fetched first, then the
    capacity. *)
Definition activeWorld : World.t TierManager.t :=
  World.mk (TierManager.create (Some "AFF001")) 1000
    [(80, Json activeStatus); reply proFullSnapshot].

(** The monitor holds the scenario's snapshot and the network is down. *)
Definition offlineMonitor : World.t CapacityMonitor.t :=
  World.mk scenarioMonitor 5000 [(30000, NetworkError)].

(** A manager whose request is answered with [success: false]. *)
Definition offlineManager : World.t TierManager.t :=
  World.mk (TierManager.create (Some "AFF001")) 5000
    [(30000, Json (Data.mk false None None None None None None None None
                     None None None None (Some "Unauthorized")))].

(** ** Terms of the further properties *)

Section FurtherTerms.
Import CapacityMonitor.

(** The snapshot lists the tier [tierName]. *)
Definition lists (c : Capacity.t) (tierName : string) : Prop :=
  In tierName (map fst (Capacity.tiers c)).

(** No tier is listed twice, as in every object. *)
Definition uniqueTiers (c : Capacity.t) : Prop :=
  NoDup (map fst (Capacity.tiers c)).


(** The world [w] seen at another time, with other replies to come. *)
Definition later {S : Type} (w : World.t S) (now : Z)
    (network : list (Z * FetchOutcome)) : World.t S :=
  World.mk (World.self w) now network.

End FurtherTerms.

Section LimiterTerms.
Import Auth.

(** The attempts that still count at time [now]: those less than the
    window old. *)
Definition recentAt (now : Z) (attempts : list Z) : list Z :=
  filter (fun timestamp => now - timestamp < SECURITY.rateLimitWindow) attempts.

(** A failed login of [email] at time [now], and failed logins at
    successive times. *)
Definition recordAt (email : string) (w : World.t Auth.t) (now : Z)
    : World.t Auth.t :=
  snd (recordLoginAttempt email (later w now (World.network w))).

Definition recordAll (email : string) (times : list Z) (w : World.t Auth.t)
    : World.t Auth.t :=
  fold_left (recordAt email) times w.

(** The answer of the limiter for [email] at time [now]. *)
Definition allowedAt (email : string) (now : Z) (w : World.t Auth.t)
    : Completion bool :=
  fst (checkRateLimit email (later w now (World.network w))).

(** The world after that check. *)
Definition checkedAt (email : string) (now : Z) (w : World.t Auth.t)
    : World.t Auth.t :=
  snd (checkRateLimit email (later w now (World.network w))).

End LimiterTerms.

(** A monitor that holds the snapshot of the tie and has shown nothing:
    clicks at 20%, PRO at 44% and ACTIVE at 87.5%. *)
Definition quietMonitor : CapacityMonitor.t :=
  CapacityMonitor.mk (Some tiedSnapshot) ∅ [].

(** The reply that carries the scenario's snapshot. *)
Definition scenarioData : Data.t :=
  Data.mk true (Some scenarioSnapshot) None None None None
    None None None None None None None None.

(** A limiter that has recorded nothing. *)
Definition limiterWorld : World.t Auth.t := World.mk Auth.create 0 [].

(** * Properties *)

(** ** Numbers *)

Section NumberFacts.


Lemma Qgtb_true (a b : Q) : Js.Qgtb a b = true <-> (b < a)%Q.
Proof.
  unfold Js.Qgtb. rewrite negb_true_iff. split.
  - intros H. apply Qnot_le_lt. intros Hle.
    apply Qle_bool_iff in Hle. congruence.
  - intros H. destruct (Qle_bool a b) eqn:E; [|reflexivity].
    apply Qle_bool_iff in E. lra.
Qed.

Lemma Qgtb_false (a b : Q) : Js.Qgtb a b = false <-> (a <= b)%Q.
Proof.
  unfold Js.Qgtb. rewrite negb_false_iff. apply Qle_bool_iff.
Qed.

Lemma Qgtb_mono (a b c : Q) :
  (b <= c)%Q -> Js.Qgtb a c = true -> Js.Qgtb a b = true.
Proof. rewrite !Qgtb_true. intros. lra. Qed.

(** A larger literal is exceeded only if a smaller one is. *)
Lemma gt_mono (x : Js.number) (b c : Q) :
  (b <= c)%Q -> Js.gt x c = true -> Js.gt x b = true.
Proof.
  destruct x; simpl; try done. apply Qgtb_mono.
Qed.

Lemma div_positive_limit (used limit : Z) :
  0 < limit -> Js.div used limit = Js.Finite (inject_Z used / inject_Z limit).
Proof.
  intros H. unfold Js.div.
  destruct (Z.eqb_spec limit 0); [lia | reflexivity].
Qed.

(** With a positive limit, [(used / limit) * 100 > k] is the comparison
    [k * limit < 100 * used] of whole numbers. *)
Lemma percent_gt (used limit k : Z) :
  0 < limit ->
  Js.gt (Js.mul (Js.div used limit) 100) (inject_Z k) = true
  <-> k * limit < 100 * used.
Proof.
  intros H. rewrite div_positive_limit by done. simpl.
  rewrite Qgtb_true.
  destruct limit as [|p|p]; try lia.
  unfold Qlt, Qdiv, Qmult, Qinv, inject_Z. simpl. lia.
Qed.

End NumberFacts.

(** ** CapacityMonitor: status, pause and recommendation *)

Section MonitorQueries.
Import CapacityMonitor.

Lemma anyTierOver95_true (entries : list (string * TierCapacity.t)) :
  anyTierOver95 entries = true <->
  exists tier data,
    In (tier, data) entries /\ (95 < TierCapacity.percentFull data)%Q.
Proof.
  induction entries as [|[tier data] rest IH]; simpl.
  - split; [discriminate | intros (? & ? & [] & _)].
  - destruct (Js.Qgtb (TierCapacity.percentFull data) 95) eqn:E.
    + split; [|reflexivity]. intros _. exists tier, data.
      split; [by left | by apply Qgtb_true].
    + rewrite IH. split.
      * intros (t & d & Hin & Hd). exists t, d. split; [by right | done].
      * intros (t & d & [Heq | Hin] & Hd).
        -- inversion Heq; subst. apply Qgtb_true in Hd. congruence.
        -- by exists t, d.
Qed.

Lemma clickPercent_gt (c : Capacity.t) (k : Z) :
  0 < Counter.limit (Capacity.clicks c) ->
  Js.gt (clickPercent c) (inject_Z k) = true
  <-> k * Counter.limit (Capacity.clicks c)
      < 100 * Counter.used (Capacity.clicks c).
Proof. apply percent_gt. Qed.

(** C1.  [getSystemStatus] answers "unknown" (gray, "Loading system
    status...") while no snapshot is held.  With a snapshot and
    [p = (used / limit) * 100] for the global clicks, it answers "critical"
    (red, the critical message) when [p > 95], "warning" (yellow, the
    warning message) when [80 < p] and not [p > 95], and "healthy" (green,
    the healthy message) for any other [p].  For a positive limit the cut
    points are exact on the counters: critical iff
    [95 * limit < 100 * used], warning iff
    [80 * limit < 100 * used <= 95 * limit], healthy iff
    [100 * used <= 80 * limit]. *)
Theorem getSystemStatus_classification (m : CapacityMonitor.t) :
  (currentCapacity m = None ->
   getSystemStatus m
   = Status.mk "unknown" "gray" "Loading system status..." None)
  /\ (forall c, holding c m ->
      let p := clickPercent c in
      (Js.gt p 95 = true ->
       getSystemStatus m = Status.mk "critical" "red" criticalMessage (Some p))
      /\ (Js.gt p 80 = true -> Js.gt p 95 = false ->
          getSystemStatus m
          = Status.mk "warning" "yellow" warningMessage (Some p))
      /\ (Js.gt p 80 = false ->
          getSystemStatus m
          = Status.mk "healthy" "green" healthyMessage (Some p)))
  /\ (forall c, holding c m ->
      let used := Counter.used (Capacity.clicks c) in
      let limit := Counter.limit (Capacity.clicks c) in
      0 < limit ->
      (Status.status (getSystemStatus m) = "critical"
       <-> 95 * limit < 100 * used)
      /\ (Status.status (getSystemStatus m) = "warning"
          <-> 80 * limit < 100 * used <= 95 * limit)
      /\ (Status.status (getSystemStatus m) = "healthy"
          <-> 100 * used <= 80 * limit)).
Proof.
  unfold holding, getSystemStatus. split; [|split].
  - intros ->. reflexivity.
  - intros c ->. cbv zeta. set (p := clickPercent c). repeat split.
    + intros ->. reflexivity.
    + intros H80 H95. by rewrite H95, H80.
    + intros H80. rewrite H80.
      destruct (Js.gt p 95) eqn:H95; [|reflexivity].
      apply (gt_mono p 80 95) in H95; [congruence | lra].
  - intros c -> Hlimit. cbv zeta.
    pose proof (clickPercent_gt c 95 Hlimit) as H95.
    pose proof (clickPercent_gt c 80 Hlimit) as H80.
    change (inject_Z 95) with 95%Q in H95.
    change (inject_Z 80) with 80%Q in H80.
    assert (Hmono : Js.gt (clickPercent c) 95 = true ->
                    Js.gt (clickPercent c) 80 = true)
      by (apply gt_mono; lra).
    destruct (Js.gt (clickPercent c) 95) eqn:E95;
      destruct (Js.gt (clickPercent c) 80) eqn:E80; simpl;
      try (specialize (Hmono eq_refl); discriminate);
      rewrite <- ?not_true_iff_false in *;
      (split; [|split]); (split; [try discriminate; try done; lia|]);
      intros; try reflexivity; exfalso; lia.
Qed.

(** C10.  While no snapshot is held, [shouldPauseSignups] answers false. *)
Theorem shouldPauseSignups_without_snapshot
    (shown : gset string) (displayed : list Warning.t) :
  shouldPauseSignups (CapacityMonitor.mk None shown displayed) = false.
Proof. reflexivity. Qed.

(** C4.  With a snapshot held, [shouldPauseSignups] answers true exactly
    when some tier of the snapshot has [percentFull > 95] or the global
    click percentage [(used / limit) * 100] exceeds 90; each of the two
    conditions is enough on its own, whatever the other is.  For a positive
    limit the click condition is [90 * limit < 100 * used]. *)
Theorem shouldPauseSignups_iff (m : CapacityMonitor.t) (c : Capacity.t) :
  holding c m ->
  let tierOver95 :=
    exists tier data,
      In (tier, data) (Capacity.tiers c)
      /\ (95 < TierCapacity.percentFull data)%Q in
  (shouldPauseSignups m = true
   <-> tierOver95 \/ Js.gt (clickPercent c) 90 = true)
  /\ (tierOver95 -> shouldPauseSignups m = true)
  /\ (Js.gt (clickPercent c) 90 = true -> shouldPauseSignups m = true)
  /\ (0 < Counter.limit (Capacity.clicks c) ->
      (shouldPauseSignups m = true
       <-> tierOver95
           \/ 90 * Counter.limit (Capacity.clicks c)
              < 100 * Counter.used (Capacity.clicks c))).
Proof.
  intros Hc tierOver95. unfold holding in Hc.
  unfold shouldPauseSignups. rewrite Hc.
  assert (Hiff : (if anyTierOver95 (Capacity.tiers c) then true
                  else Js.gt (clickPercent c) 90) = true
                 <-> tierOver95 \/ Js.gt (clickPercent c) 90 = true).
  { subst tierOver95. rewrite <- anyTierOver95_true.
    destruct (anyTierOver95 (Capacity.tiers c)); intuition discriminate. }
  split; [exact Hiff|]. split; [|split].
  - intros H. apply Hiff. by left.
  - intros H. apply Hiff. by right.
  - intros Hlimit. rewrite Hiff.
    pose proof (clickPercent_gt c 90 Hlimit) as H90.
    change (inject_Z 90) with 90%Q in H90. by rewrite H90.
Qed.

(** *** The recommended tier *)

Lemma recommendLoop_keeps (entries : list (string * TierCapacity.t))
    (bestTier : string) (mostSpace : Z) :
  Forall (fun e => availableOfEntry e <= mostSpace) entries ->
  recommendLoop entries bestTier mostSpace = bestTier.
Proof.
  induction 1 as [|[tier data] rest Hle _ IH]; simpl; [reflexivity|].
  unfold availableOfEntry in Hle. simpl in Hle.
  destruct (Z.ltb_spec mostSpace (TierCapacity.available data)); [lia | exact IH].
Qed.

Lemma recommendLoop_first_largest
    (before after : list (string * TierCapacity.t))
    (tier : string) (data : TierCapacity.t) :
  Forall (fun e => availableOfEntry e < TierCapacity.available data) before ->
  Forall (fun e => availableOfEntry e <= TierCapacity.available data) after ->
  forall bestTier mostSpace,
    mostSpace < TierCapacity.available data ->
    recommendLoop (before ++ (tier, data) :: after)%list bestTier mostSpace
    = tier.
Proof.
  intros Hbefore Hafter.
  induction Hbefore as [|[t d] rest Hlt _ IH]; intros bestTier mostSpace Hmost; simpl.
  - destruct (Z.ltb_spec mostSpace (TierCapacity.available data)); [|lia].
    by apply recommendLoop_keeps.
  - unfold availableOfEntry in Hlt. simpl in Hlt.
    destruct (Z.ltb_spec mostSpace (TierCapacity.available d)); by apply IH.
Qed.

Lemma specAvailable_newbie (newbie active pro elite : TierCapacity.t) :
  specAvailable (inConfigOrder newbie active pro elite) "NEWBIE"
  = TierCapacity.available newbie.
Proof. reflexivity. Qed.

Lemma specAvailable_active (newbie active pro elite : TierCapacity.t) :
  specAvailable (inConfigOrder newbie active pro elite) "ACTIVE"
  = TierCapacity.available active.
Proof. reflexivity. Qed.

Lemma specAvailable_pro (newbie active pro elite : TierCapacity.t) :
  specAvailable (inConfigOrder newbie active pro elite) "PRO"
  = TierCapacity.available pro.
Proof. reflexivity. Qed.

Lemma specAvailable_elite (newbie active pro elite : TierCapacity.t) :
  specAvailable (inConfigOrder newbie active pro elite) "ELITE"
  = TierCapacity.available elite.
Proof. reflexivity. Qed.

(** C5, as the code has it.  Without a snapshot [getRecommendedTier]
    answers "NEWBIE".  With one it walks the snapshot's tiers in the order
    the snapshot lists them: the answer is the first listed tier whose
    [available] is positive and at least that of every other tier, so a tie
    goes to the tier listed first in the snapshot; when no tier has
    anything available the answer is "NEWBIE".  When the snapshot lists
    NEWBIE, ACTIVE, PRO, ELITE in that order with no negative [available],
    this is the tier the specification names (largest [available], ties to
    the tier declared first in the configuration). *)
Theorem getRecommendedTier_first_largest (m : CapacityMonitor.t) :
  (currentCapacity m = None -> getRecommendedTier m = "NEWBIE")
  /\ (forall c, holding c m ->
      Forall (fun e => availableOfEntry e <= 0) (Capacity.tiers c) ->
      getRecommendedTier m = "NEWBIE")
  /\ (forall c before tier data after, holding c m ->
      Capacity.tiers c = (before ++ (tier, data) :: after)%list ->
      0 < TierCapacity.available data ->
      Forall (fun e => availableOfEntry e < TierCapacity.available data) before ->
      Forall (fun e => availableOfEntry e <= TierCapacity.available data) after ->
      getRecommendedTier m = tier)
  /\ (forall c newbie active pro elite, holding c m ->
      Capacity.tiers c = inConfigOrder newbie active pro elite ->
      Forall (fun e => 0 <= availableOfEntry e) (Capacity.tiers c) ->
      getRecommendedTier m = specRecommendedTier (Capacity.tiers c)).
Proof.
  unfold holding, getRecommendedTier. repeat split.
  - by intros ->.
  - intros c -> Hnone. by apply recommendLoop_keeps.
  - intros c before tier data after -> -> Hpos Hbefore Hafter.
    by apply recommendLoop_first_largest.
  - intros c newbie active pro elite -> -> Hnonneg.
    unfold inConfigOrder in Hnonneg.
    repeat match goal with
           | H : Forall _ (_ :: _) |- _ => inversion H; clear H; subst
           end.
    unfold availableOfEntry in *. simpl in *.
    unfold specRecommendedTier.
    change (map fst CONFIG.TIERS) with ["NEWBIE"; "ACTIVE"; "PRO"; "ELITE"].
    cbn [specLargest].
    repeat (rewrite ?specAvailable_newbie, ?specAvailable_active,
              ?specAvailable_pro, ?specAvailable_elite;
            match goal with
            | |- context [TierCapacity.available ?a <? TierCapacity.available ?b] =>
                destruct (Z.ltb_spec (TierCapacity.available a)
                                     (TierCapacity.available b))
            end).
    all: unfold inConfigOrder; cbn [recommendLoop].
    all: repeat match goal with
                | |- context [?a <? ?b] => destruct (Z.ltb_spec a b)
                end; try reflexivity; lia.
Qed.

End MonitorQueries.

(** C5 as stated fails: PRO and ACTIVE both have 50 available, ACTIVE is
    declared before PRO in the configuration, and the answer is PRO, the
    tier the snapshot lists first. *)
Lemma getRecommendedTier_tie_counterexample :
  CapacityMonitor.getRecommendedTier
    (CapacityMonitor.mk (Some tiedSnapshot) ∅ [])
  <> specRecommendedTier (Capacity.tiers tiedSnapshot).
Proof. vm_compute. discriminate. Qed.

Example getRecommendedTier_tie_values :
  CapacityMonitor.getRecommendedTier
    (CapacityMonitor.mk (Some tiedSnapshot) ∅ []) = "PRO"
  /\ specRecommendedTier (Capacity.tiers tiedSnapshot) = "ACTIVE".
Proof. split; reflexivity. Qed.

(** ** CapacityMonitor: warnings *)

Section MonitorWarnings.
Import CapacityMonitor.

Lemma collectWarnings_rules (c : Capacity.t) (shown : gset string) :
  collectWarnings c shown = fold_left applyRule (rulesOf c) ([], shown).
Proof.
  unfold collectWarnings, rulesOf. cbn [app fold_left applyRule].
  generalize (rule (Js.gt (clickPercent c) 95) "clicks_95" clicksCritical
                (rule (Js.gt (clickPercent c) 80) "clicks_80"
                   (clicksWarning (clickPercent c)) ([], shown))).
  induction (Capacity.tiers c) as [|[tier data] rest IH]; intros acc.
  - reflexivity.
  - cbn [fold_left flat_map tierRuleList app]. rewrite IH. reflexivity.
Qed.

Lemma rulesOf_keyed (c : Capacity.t) : Forall keyed (rulesOf c).
Proof.
  unfold rulesOf. apply Forall_app. split.
  - repeat constructor.
  - induction (Capacity.tiers c) as [|[tier data] rest IH]; simpl.
    + constructor.
    + repeat (constructor; [reflexivity|]). exact IH.
Qed.

(** What a run of rules adds: every key at most once, never a key that
    was recorded before, and exactly the keys of the rules whose
    condition holds and whose key was not recorded. *)
Lemma fold_rules (rs : list Rule) :
  Forall keyed rs ->
  forall (ws : list Warning.t) (shown : gset string),
  exists new : list Warning.t,
    fold_left applyRule rs (ws, shown)
    = ((ws ++ new)%list, shown ∪ list_to_set (keysOf new))
    /\ NoDup (keysOf new)
    /\ (forall k, k ∈ keysOf new <->
                  (k ∉ shown) /\ exists w : Warning.t, ((true, k, w) : Rule) ∈ rs).
Proof.
  induction rs as [|[[cond key] w] rs IH]; intros Hkeyed ws shown.
  - exists []. simpl. rewrite app_nil_r. split; [|split].
    + f_equal. set_solver.
    + constructor.
    + intros k. split.
      * intros Hin. by apply elem_of_nil in Hin.
      * intros [_ [w Hw]]. by apply elem_of_nil in Hw.
  - apply Forall_cons in Hkeyed as [Hkey Hkeyed]. simpl in Hkey.
    specialize (IH Hkeyed).
    cbn [fold_left applyRule]. unfold rule, has.
    destruct cond; cbn [andb]; [case_bool_decide as Hshown; cbn [negb]|].
    + (* recorded before: skipped *)
      destruct (IH ws shown) as (new & Heq & Hnodup & Hiff).
      exists new. split; [done|]. split; [done|].
      intros k. rewrite Hiff. split.
      * intros (Hk & w' & Hw'). split; [done|]. exists w'. by right.
      * intros (Hk & w' & Hw'). split; [done|].
        apply elem_of_cons in Hw' as [Heq' | Hw']; [|by exists w'].
        inversion Heq'; subst. done.
    + (* pushed and recorded *)
      destruct (IH (ws ++ [w])%list ({[key]} ∪ shown))
        as (new & Heq & Hnodup & Hiff).
      exists (w :: new). rewrite Heq. unfold keysOf in *. cbn [map].
      rewrite Hkey. split; [|split].
      * f_equal; [by rewrite <- app_assoc | set_solver].
      * apply NoDup_cons. split; [|done].
        intros Hin. apply Hiff in Hin as [Hin _]. set_solver.
      * intros k. split.
        -- intros Hin. apply elem_of_cons in Hin as [-> | Hk].
           ++ split; [done|]. exists w. by left.
           ++ apply Hiff in Hk as (Hk & w' & Hw').
              split; [set_solver|]. exists w'. by right.
        -- intros [Hk (w' & Hw')].
           destruct (decide (k = key)) as [-> | Hne]; [by left|].
           right. apply Hiff. split; [set_solver|].
           apply elem_of_cons in Hw' as [Heq' | Hw']; [|by exists w'].
           inversion Heq'; subst. done.
    + (* condition false *)
      destruct (IH ws shown) as (new & Heq & Hnodup & Hiff).
      exists new. split; [done|]. split; [done|].
      intros k. rewrite Hiff. split.
      * intros (Hk & w' & Hw'). split; [done|]. exists w'. by right.
      * intros (Hk & w' & Hw'). split; [done|].
        apply elem_of_cons in Hw' as [Heq' | Hw']; [|by exists w'].
        inversion Heq'.
Qed.

Lemma crossed_rules (c : Capacity.t) (k : string) :
  (exists w : Warning.t, ((true, k, w) : Rule) ∈ rulesOf c) <-> crossed c k.
Proof.
  unfold rulesOf, crossed. split.
  - intros (w & Hw). apply elem_of_app in Hw as [Hw | Hw].
    + apply elem_of_cons in Hw as [Heq | Hw].
      { inversion Heq. left. by split. }
      apply elem_of_cons in Hw as [Heq | Hw].
      { inversion Heq. right. left. by split. }
      by apply elem_of_nil in Hw.
    + right. right. apply list_elem_of_In, in_flat_map in Hw
        as ([tier data] & Hin & Hw).
      exists tier, data. split; [done|].
      destruct Hw as [Heq | [Heq | []]]; injection Heq as Hc Hk Hw;
        apply Qgtb_true in Hc; [left | right]; by split.
  - intros [[-> H] | [[-> H] | (tier & data & Hin & H)]].
    + exists (clicksWarning (clickPercent c)). rewrite H.
      apply elem_of_app. left. by left.
    + exists clicksCritical. rewrite H.
      apply elem_of_app. left. right. by left.
    + destruct H as [[-> H] | [-> H]]; apply Qgtb_true in H.
      * exists (tierWarning tier data). apply elem_of_app. right.
        apply list_elem_of_In, in_flat_map. exists (tier, data).
        split; [done|]. simpl. rewrite H. by left.
      * exists (tierCritical tier data). apply elem_of_app. right.
        apply list_elem_of_In, in_flat_map. exists (tier, data).
        split; [done|]. simpl. rewrite H. right. by left.
Qed.

(** One evaluation: the page receives the warnings of the exceeded
    thresholds whose keys were not recorded, each once, and their keys are
    recorded. *)
Lemma checkWarnings_holding (m : CapacityMonitor.t) (c : Capacity.t) :
  currentCapacity m = Some c ->
  exists new : list Warning.t,
    checkWarnings m
    = CapacityMonitor.mk (Some c)
        (warningsShown m ∪ list_to_set (keysOf new))
        (displayed m ++ new)%list
    /\ NoDup (keysOf new)
    /\ (forall k, k ∈ keysOf new <-> crossed c k /\ k ∉ warningsShown m).
Proof.
  intros Hc. unfold checkWarnings. rewrite Hc, collectWarnings_rules.
  destruct (fold_rules (rulesOf c) (rulesOf_keyed c) [] (warningsShown m))
    as (new & -> & Hnodup & Hiff).
  exists new. split; [|split; [done|]].
  - cbn [app]. unfold displayWarnings. simpl.
    destruct new; simpl; [by rewrite app_nil_r | done].
  - intros k. rewrite Hiff, crossed_rules. tauto.
Qed.

Lemma checkWarnings_without_snapshot (m : CapacityMonitor.t) :
  currentCapacity m = None -> checkWarnings m = m.
Proof. unfold checkWarnings. by intros ->. Qed.

End MonitorWarnings.

Section MonitorRuns.
Import CapacityMonitor.

Lemma fetchCapacity_fails (w : World.t CapacityMonitor.t) :
  fetchFails w -> fetchCapacity w = (Normal None, consumed w).
Proof.
  unfold fetchFails, consumed, fetchCapacity, tryCatch, bind, fetchJson, ret.
  destruct (World.network w) as [|[elapsed [| |data]] rest]; simpl; try done.
  intros H. apply negb_true_iff in H. by rewrite H.
Qed.

Lemma fetchCapacity_succeeds (w : World.t CapacityMonitor.t)
    (elapsed : Z) (data : Data.t) (rest : list (Z * FetchOutcome)) :
  World.network w = (elapsed, Json data) :: rest ->
  Data.success data = true ->
  fetchCapacity w
  = (Normal (Data.capacity data),
     World.mk
       (checkWarnings
          (CapacityMonitor.mk (Data.capacity data)
             (warningsShown (World.self w)) (displayed (World.self w))))
       (World.clock w + elapsed) rest).
Proof.
  intros Hnet Hsuccess.
  unfold fetchCapacity, tryCatch, bind, fetchJson, ret, this, setThis.
  rewrite Hnet. simpl. rewrite Hsuccess. reflexivity.
Qed.

Lemma adds_nothing (m : CapacityMonitor.t) : adds [] m m.
Proof.
  unfold adds. simpl. rewrite app_nil_r. repeat split.
  - set_solver.
  - constructor.
  - intros k Hk. by apply elem_of_nil in Hk.
Qed.

Lemma adds_then (new1 new2 : list Warning.t) (m m1 m2 : CapacityMonitor.t) :
  adds new1 m m1 -> adds new2 m1 m2 -> adds (new1 ++ new2)%list m m2.
Proof.
  intros (Hd1 & Hs1 & Hn1 & Hf1) (Hd2 & Hs2 & Hn2 & Hf2).
  unfold adds, keysOf in *. rewrite map_app. repeat split.
  - by rewrite Hd2, Hd1, app_assoc.
  - rewrite Hs2, Hs1, list_to_set_app_L. set_solver.
  - apply NoDup_app. repeat split; [done | | done].
    intros k Hk1 Hk2. apply Hf2 in Hk2. rewrite Hs1 in Hk2.
    apply Hk2, elem_of_union. right. by apply elem_of_list_to_set.
  - intros k Hk. apply elem_of_app in Hk as [Hk | Hk]; [by apply Hf1|].
    apply Hf2 in Hk. rewrite Hs1 in Hk. set_solver.
Qed.

Lemma refresh_adds (w : World.t CapacityMonitor.t) :
  exists new, adds new (World.self w) (World.self (call w Refresh)).
Proof.
  unfold call.
  destruct (World.network w) as [|[elapsed outcome] rest] eqn:Hnet.
  { rewrite fetchCapacity_fails by (unfold fetchFails; by rewrite Hnet).
    unfold consumed. rewrite Hnet. exists []. apply adds_nothing. }
  destruct (failed outcome) eqn:Hfailed.
  { rewrite fetchCapacity_fails by (unfold fetchFails; by rewrite Hnet).
    unfold consumed. rewrite Hnet. exists []. apply adds_nothing. }
  destruct outcome as [| |data]; try discriminate.
  apply negb_false_iff in Hfailed.
  rewrite (fetchCapacity_succeeds w elapsed data rest Hnet Hfailed). simpl.
  destruct (Data.capacity data) as [c|] eqn:Hc.
  - destruct (checkWarnings_holding
                (CapacityMonitor.mk (Some c) (warningsShown (World.self w))
                   (displayed (World.self w))) c eq_refl)
      as (new & -> & Hnodup & Hiff).
    exists new. unfold adds. simpl. repeat split; try done.
    intros k Hk. by apply Hiff in Hk as [_ Hk].
  - rewrite checkWarnings_without_snapshot by done.
    exists []. unfold adds. simpl. rewrite app_nil_r. repeat split.
    + set_solver.
    + constructor.
    + intros k Hk. by apply elem_of_nil in Hk.
Qed.

Lemma run_adds (calls : list Call) :
  Reset ∉ calls ->
  forall w, exists new, adds new (World.self w) (World.self (run calls w)).
Proof.
  induction calls as [|c calls IH]; intros Hreset w.
  - exists []. apply adds_nothing.
  - apply not_elem_of_cons in Hreset as [Hc Hreset].
    destruct c; [|done]. unfold run. cbn [fold_left].
    destruct (refresh_adds w) as (new1 & H1).
    destruct (IH Hreset (call w Refresh)) as (new2 & H2).
    exists (new1 ++ new2)%list. by eapply adds_then.
Qed.

(** C2.  Over any sequence of refreshes without a reset, whatever the
    snapshots that arrive, the warnings handed to the page carry pairwise
    distinct keys, none of which was recorded before the sequence, and the
    recorded keys grow by exactly those keys; so a key fires at most once
    since the last reset, also when the percentage drops and rises again.
    One evaluation hands over exactly the warnings of the thresholds that
    the snapshot exceeds and whose key is not recorded.  After
    [resetWarnings] the evaluation hands over the warning of every
    threshold the snapshot exceeds, so the same crossing fires again. *)
Theorem warnings_once_per_key :
  (forall (calls : list Call) (w : World.t CapacityMonitor.t),
      Reset ∉ calls ->
      exists new : list Warning.t,
        displayed (World.self (run calls w))
        = (displayed (World.self w) ++ new)%list
        /\ NoDup (keysOf new)
        /\ (forall k, k ∈ keysOf new -> k ∉ warningsShown (World.self w))
        /\ warningsShown (World.self (run calls w))
           = warningsShown (World.self w) ∪ list_to_set (keysOf new))
  /\ (forall (m : CapacityMonitor.t) (c : Capacity.t),
      currentCapacity m = Some c ->
      exists new : list Warning.t,
        displayed (checkWarnings m) = (displayed m ++ new)%list
        /\ NoDup (keysOf new)
        /\ (forall k, k ∈ keysOf new
                      <-> crossed c k /\ k ∉ warningsShown m))
  /\ (forall (m : CapacityMonitor.t) (c : Capacity.t),
      currentCapacity m = Some c ->
      warningsShown (resetWarnings m) = ∅
      /\ exists new : list Warning.t,
        displayed (checkWarnings (resetWarnings m))
        = (displayed m ++ new)%list
        /\ (forall k, k ∈ keysOf new <-> crossed c k)).
Proof.
  split; [|split].
  - intros calls w Hreset.
    destruct (run_adds calls Hreset w) as (new & Hd & Hs & Hn & Hf).
    by exists new.
  - intros m c Hc.
    destruct (checkWarnings_holding m c Hc) as (new & -> & Hnodup & Hiff).
    by exists new.
  - intros m c Hc. split; [reflexivity|].
    destruct (checkWarnings_holding (resetWarnings m) c Hc)
      as (new & -> & _ & Hiff).
    exists new. split; [reflexivity|].
    intros k. rewrite Hiff. simpl. set_solver.
Qed.

End MonitorRuns.

(** *** The end-to-end scenario of the specification

    Clicks at 82% and PRO at 98.9%: the status is "warning", the keys
    clicks_80, tier_PRO_90 and tier_PRO_98 fire and clicks_95 does not, and
    the signups pause. *)

Example scenario_status :
  Status.status
    (CapacityMonitor.getSystemStatus (World.self (run [Refresh] scenarioWorld)))
  = "warning".
Proof. reflexivity. Qed.

Example scenario_warnings :
  keysOf (CapacityMonitor.displayed (World.self (run [Refresh] scenarioWorld)))
  = ["clicks_80"; "tier_PRO_90"; "tier_PRO_98"].
Proof. vm_compute. reflexivity. Qed.

Example scenario_message :
  map Warning.message
    (firstn 2 (CapacityMonitor.displayed
                 (World.self (run [Refresh] scenarioWorld))))
  = ["System at 82% of daily click capacity";
     "PRO tier is 99% full (1 spots left)"].
Proof. vm_compute. reflexivity. Qed.

Example scenario_pause :
  CapacityMonitor.shouldPauseSignups
    (World.self (run [Refresh] scenarioWorld)) = true.
Proof. vm_compute. reflexivity. Qed.

(** One tier at 96% with no click used pauses the signups; so do clicks at
    91% with every tier low; clicks at 90% and a tier at 95% do not. *)
Example pause_conditions :
  CapacityMonitor.shouldPauseSignups
    (CapacityMonitor.mk
       (Some (Capacity.mk (Counter.mk 0 5000 5000) (Counter.mk 0 500 500)
                [("NEWBIE", TierCapacity.mk 10 2000 1990 (1 # 2));
                 ("ELITE", TierCapacity.mk 96 100 4 96)]))
       ∅ []) = true
  /\ CapacityMonitor.shouldPauseSignups
       (CapacityMonitor.mk
          (Some (Capacity.mk (Counter.mk 4550 5000 450) (Counter.mk 0 500 500)
                   [("NEWBIE", TierCapacity.mk 10 2000 1990 (1 # 2))]))
          ∅ []) = true
  /\ CapacityMonitor.shouldPauseSignups
       (CapacityMonitor.mk
          (Some (Capacity.mk (Counter.mk 4500 5000 500) (Counter.mk 0 500 500)
                   [("PRO", TierCapacity.mk 95 100 5 95)]))
          ∅ []) = false.
Proof. repeat split; reflexivity. Qed.

(** The cut points of the status on a limit of 1000 clicks: 79.9%, 80%
    and 80.1%, then 95% and 95.1%. *)
Example status_cut_points :
  map (fun used =>
         Status.status (CapacityMonitor.getSystemStatus (clicksAt used 1000)))
      [799; 800; 801; 950; 951]
  = ["healthy"; "healthy"; "warning"; "warning"; "critical"].
Proof. reflexivity. Qed.

(** A limit of 0: [0 / 0] is [NaN] and compares false, [5 / 0] is
    [Infinity]. *)
Example status_without_limit :
  Status.status (CapacityMonitor.getSystemStatus (clicksAt 0 0)) = "healthy"
  /\ Status.status (CapacityMonitor.getSystemStatus (clicksAt 5 0))
     = "critical".
Proof. split; reflexivity. Qed.

(** Dropping below the thresholds and rising again does not fire twice. *)
Example dip_and_rise :
  keysOf (CapacityMonitor.displayed
            (World.self
               (run [Refresh; Refresh; Refresh]
                  (World.mk CapacityMonitor.initial 0
                     [reply scenarioSnapshot; reply dipSnapshot;
                      reply scenarioSnapshot]))))
  = ["clicks_80"; "tier_PRO_90"; "tier_PRO_98"].
Proof. vm_compute. reflexivity. Qed.

(** After a reset the same crossing fires again. *)
Example reset_and_rise :
  keysOf (CapacityMonitor.displayed
            (World.self
               (run [Refresh; Reset; Refresh]
                  (World.mk CapacityMonitor.initial 0
                     [reply scenarioSnapshot; reply scenarioSnapshot]))))
  = ["clicks_80"; "tier_PRO_90"; "tier_PRO_98";
     "clicks_80"; "tier_PRO_90"; "tier_PRO_98"].
Proof. vm_compute. reflexivity. Qed.

(** ** Computations that never throw *)

Section Totality.
Context {S : Type}.

Lemma total_ret {A : Type} (a : A) : total (ret a : Eff S A).
Proof. intros w. by exists a, w. Qed.

Lemma total_bind {A B : Type} (m : Eff S A) (k : A -> Eff S B) :
  total m -> (forall a, total (k a)) -> total (bind m k).
Proof.
  intros Hm Hk w. unfold bind.
  destruct (Hm w) as (a & w' & ->). apply Hk.
Qed.

(** A [try] whose handler never throws never throws, whatever its body
    does. *)
Lemma total_tryCatch {A : Type} (body : Eff S A) (handler : string -> Eff S A) :
  (forall e, total (handler e)) -> total (tryCatch body handler).
Proof.
  intros Hh w. unfold tryCatch.
  destruct (body w) as [[a|e] w']; [by exists a, w' | apply Hh].
Qed.

Lemma total_this : total (@this S).
Proof. intros w. by eexists _, _. Qed.

Lemma total_setThis (s : S) : total (setThis s).
Proof. intros w. by eexists _, _. Qed.

Lemma total_dateNow : total (@dateNow S).
Proof. intros w. by eexists _, _. Qed.

Lemma total_if {A : Type} (b : bool) (m1 m2 : Eff S A) :
  total m1 -> total m2 -> total (if b then m1 else m2).
Proof. by destruct b. Qed.

End Totality.

Ltac total_step :=
  first [ apply total_ret | apply total_this | apply total_setThis
        | apply total_dateNow | apply total_tryCatch; intros ?
        | apply total_bind; [|intros ?] | apply total_if ].

(** ** TierManager: the cache *)

Section ManagerCache.
Import TierManager.

Lemma getCached_eq (key : string) (w : World.t TierManager.t) :
  getCached key w = (Normal (fresh key w), evicted key w).
Proof.
  unfold getCached, fresh, evicted, bind, this, dateNow, setThis, ret.
  simpl. destruct (cache (World.self w) !! key) as [entry|]; [|done].
  simpl. by destruct (World.clock w <? CacheEntry.expiry entry).
Qed.

Lemma setCached_eq (key : string) (value : CacheValue) (ttl : option Z)
    (w : World.t TierManager.t) :
  setCached key value ttl w
  = (Normal tt,
     withSelf w
       (withCache (World.self w)
          (<[key := CacheEntry.mk value
                      (World.clock w + orDefault ttl (cacheTTL (World.self w)))]>
             (cache (World.self w))))).
Proof. reflexivity. Qed.

Lemma clearCache_eq (w : World.t TierManager.t) :
  clearCache w = (Normal tt, withSelf w (withCache (World.self w) ∅)).
Proof. reflexivity. Qed.

Lemma fresh_evicted (key : string) (w : World.t TierManager.t) (v : CacheValue) :
  fresh key w = Some v -> evicted key w = w.
Proof.
  unfold fresh, evicted.
  destruct (cache (World.self w) !! key) as [entry|]; [|done].
  by destruct (World.clock w <? CacheEntry.expiry entry).
Qed.

Lemma evicted_clock_network (key : string) (w : World.t TierManager.t) :
  World.clock (evicted key w) = World.clock w
  /\ World.network (evicted key w) = World.network w.
Proof.
  unfold evicted.
  destruct (cache (World.self w) !! key) as [entry|]; [|done].
  by destruct (World.clock w <? CacheEntry.expiry entry).
Qed.

(** C9.  [setCached] stores the value under the key with the expiry
    [Date.now() + ttl], where a [ttl] left out is the manager's [cacheTTL],
    replaces what the key held and leaves the other keys alone.  A later
    [getCached] of that key at time [now] returns the value if and only if
    [now < expiry]; otherwise it returns nothing and the entry is deleted.
    In general [getCached] returns a value exactly when the key holds an
    entry with that value and [now < expiry], and deletes the entry it
    finds expired.  After [clearCache] the cache is empty and every read
    returns nothing, whatever the expiry of the entries was. *)
Theorem cache_time_to_live
    (w : World.t TierManager.t) (key : string) (value : CacheValue)
    (ttl : option Z) :
  let stored := snd (setCached key value ttl w) in
  let expiry := World.clock w + orDefault ttl (cacheTTL (World.self w)) in
  fst (setCached key value ttl w) = Normal tt
  /\ cache (World.self stored) !! key = Some (CacheEntry.mk value expiry)
  /\ (forall other, other <> key ->
      cache (World.self stored) !! other = cache (World.self w) !! other)
  /\ (forall (now : Z) (network : list (Z * FetchOutcome)),
      let reader := World.mk (World.self stored) now network in
      (fst (getCached key reader) = Normal (Some value) <-> now < expiry)
      /\ (now < expiry -> getCached key reader = (Normal (Some value), reader))
      /\ (expiry <= now ->
          fst (getCached key reader) = Normal None
          /\ cache (World.self (snd (getCached key reader))) !! key = None))
  /\ (forall (k : string) (found : CacheValue),
      fst (getCached k w) = Normal (Some found)
      <-> exists entry,
            cache (World.self w) !! k = Some entry
            /\ CacheEntry.value entry = found
            /\ World.clock w < CacheEntry.expiry entry)
  /\ (forall (k : string) (entry : CacheEntry.t),
      cache (World.self w) !! k = Some entry ->
      CacheEntry.expiry entry <= World.clock w ->
      getCached k w
      = (Normal None,
         withSelf w (withCache (World.self w) (delete k (cache (World.self w))))))
  /\ (cache (World.self (snd (clearCache stored))) = ∅
      /\ forall (k : string) (now : Z) (network : list (Z * FetchOutcome)),
           fst (getCached k
                  (World.mk (World.self (snd (clearCache stored))) now network))
           = Normal None).
Proof.
  intros stored expiry. subst stored. rewrite setCached_eq. simpl.
  fold expiry.
  split; [reflexivity|]. split; [apply lookup_insert_eq|].
  split; [intros other Hne; by apply lookup_insert_ne|].
  split; [|split; [|split; [|split]]].
  - intros now network.
    rewrite getCached_eq. unfold fresh, evicted. simpl.
    rewrite lookup_insert_eq. simpl.
    destruct (Z.ltb_spec now expiry) as [Hlt | Hge]; simpl.
    + repeat split; try done; lia.
    + repeat split; try done; try lia.
      apply lookup_delete_eq.
  - intros k found. rewrite getCached_eq. unfold fresh. simpl.
    destruct (cache (World.self w) !! k) as [entry|]; split.
    + destruct (Z.ltb_spec (World.clock w) (CacheEntry.expiry entry));
        [|discriminate].
      intros [= <-]. by exists entry.
    + intros (entry' & [= <-] & <- & Hlt).
      destruct (Z.ltb_spec (World.clock w) (CacheEntry.expiry entry)); [done|lia].
    + discriminate.
    + intros (entry' & [=] & _).
  - intros k entry Hk Hexp. rewrite getCached_eq. unfold fresh, evicted.
    rewrite Hk.
    destruct (Z.ltb_spec (World.clock w) (CacheEntry.expiry entry)); [lia|done].
  - reflexivity.
  - intros k now network. rewrite getCached_eq. unfold fresh. simpl.
    by rewrite lookup_empty.
Qed.

End ManagerCache.

(** ** TierManager: admission *)

Section ManagerAdmission.
Import TierManager.

Lemma total_getCached (key : string) : total (getCached key).
Proof. intros w. rewrite getCached_eq. by eexists _, _. Qed.

Lemma total_setCached (key : string) (value : CacheValue) (ttl : option Z) :
  total (setCached key value ttl).
Proof. intros w. rewrite setCached_eq. by eexists _, _. Qed.

Lemma total_clearCache : total clearCache.
Proof. intros w. rewrite clearCache_eq. by eexists _, _. Qed.

Lemma total_getCurrentTier (affiliateId : option string) :
  total (getCurrentTier affiliateId).
Proof.
  unfold getCurrentTier. total_step; [total_step|].
  total_step; [total_step|].
  total_step; [apply total_getCached|].
  destruct a0 as [[?|?]|]; repeat total_step.
Qed.

Lemma total_checkTierCapacity (tierName : string) :
  total (checkTierCapacity tierName).
Proof.
  unfold checkTierCapacity. total_step; [apply total_getCached|].
  destruct a as [[?|?]|]; repeat total_step.
Qed.

Lemma total_getAllTierCapacities : total getAllTierCapacities.
Proof. unfold getAllTierCapacities. repeat total_step. Qed.

Lemma total_getAvailableTier : total getAvailableTier.
Proof.
  unfold getAvailableTier. total_step; [apply total_getAllTierCapacities|].
  total_step.
Qed.

Lemma total_isActionAllowed (action : string) (affiliateId : option string) :
  total (isActionAllowed action affiliateId).
Proof.
  unfold isActionAllowed. total_step; [apply total_getCurrentTier|].
  destruct a as [tier|]; repeat total_step.
Qed.

Lemma total_canUpgrade (affiliateId : option string) :
  total (canUpgrade affiliateId).
Proof.
  unfold canUpgrade. total_step; [apply total_getCurrentTier|].
  destruct a as [tier|]; [|total_step].
  total_step; [total_step|]. total_step; [|total_step].
  total_step; [apply total_checkTierCapacity|]. repeat total_step.
Qed.

Lemma total_requestUpgrade (affiliateId : option string) :
  total (requestUpgrade affiliateId).
Proof.
  unfold requestUpgrade. total_step; [apply total_canUpgrade|].
  repeat total_step.
Qed.

Lemma total_fetchCapacity : total CapacityMonitor.fetchCapacity.
Proof. unfold CapacityMonitor.fetchCapacity. repeat total_step. Qed.

(** C7.  When the tier status is known, [isActionAllowed] decides by the
    action.  For "click" it denies exactly when [clicksRemaining <= 0],
    with the reason "Daily click limit reached", the counters
    [clicksToday] and [clicksLimit] and zero remaining, and otherwise
    allows with the counters and the remaining clicks.  For "sale" it
    allows.  For any other action it allows.  So a denial happens only
    for a click with nothing remaining. *)
Theorem isActionAllowed_by_action
    (w : World.t TierManager.t) (action : string)
    (affiliateId : option string) (tier : TierData.t) :
  tierKnown affiliateId w tier ->
  let after := snd (getCurrentTier affiliateId w) in
  let answer := fst (isActionAllowed action affiliateId w) in
  snd (isActionAllowed action affiliateId w) = after
  /\ (action = "click" -> TierData.clicksRemaining tier <= 0 ->
      answer
      = Normal (Decision.mk false (Some "Daily click limit reached")
                  (Some (TierData.clicksToday tier))
                  (Some (TierData.clicksLimit tier)) (Some 0)))
  /\ (action = "click" -> 0 < TierData.clicksRemaining tier ->
      answer
      = Normal (Decision.mk true None
                  (Some (TierData.clicksToday tier))
                  (Some (TierData.clicksLimit tier))
                  (Some (TierData.clicksRemaining tier))))
  /\ (action = "sale" ->
      answer = Normal (Decision.mk true None None None None))
  /\ (action <> "click" -> action <> "sale" ->
      answer = Normal (Decision.mk true None None None None))
  /\ (exists decision,
        answer = Normal decision
        /\ (Decision.allowed decision = false
            <-> action = "click" /\ TierData.clicksRemaining tier <= 0)).
Proof.
  unfold tierKnown, isActionAllowed, bind.
  destruct (getCurrentTier affiliateId w) as [[[known|]|e] after];
    simpl; intros [= ->].
  destruct (String.eqb_spec action "click") as [-> | Hclick].
  - destruct (Z.leb_spec (TierData.clicksRemaining tier) 0); simpl;
      (split; [reflexivity|]); repeat split; intros;
      try reflexivity; try discriminate; try lia; try done.
    + eexists. split; [reflexivity|]. simpl. split; [done|intros _; done].
    + eexists. split; [reflexivity|]. simpl.
      split; [discriminate | intros [_ ?]; lia].
  - destruct (String.eqb_spec action "sale") as [-> | Hsale]; simpl;
      (split; [reflexivity|]); repeat split; intros;
      try reflexivity; try discriminate; try done;
      (eexists; split; [reflexivity|]; simpl;
       split; [discriminate | intros [? _]; done]).
Qed.

(** *** Upgrades *)

Lemma lastChar_append (a b : string) :
  b <> "" -> lastChar (a +:+ b) = lastChar b.
Proof.
  intros Hb. induction a as [|c a IH]; [reflexivity|].
  change (String c a +:+ b) with (String c (a +:+ b)).
  destruct (a +:+ b) eqn:E.
  - destruct a; cbv [String.append] in E; [congruence | discriminate].
  - rewrite <- IH. reflexivity.
Qed.

(** The two reasons of a refusal can never be the same text: one ends in
    "sales", the other in "full". *)
Lemma shortfall_reason_is_not_full_reason (shortfall : Z) (nextTier : string) :
  "Need " +:+ pretty shortfall +:+ " more sales"
  <> nextTier +:+ " tier is currently full".
Proof.
  intros Heq. apply (f_equal lastChar) in Heq.
  assert (Hne : pretty shortfall +:+ " more sales" <> "").
  { destruct (pretty shortfall); cbv [String.append]; discriminate. }
  rewrite (lastChar_append "Need " _ Hne) in Heq.
  rewrite !lastChar_append in Heq by discriminate.
  vm_compute in Heq. discriminate.
Qed.

(** C6.  For an affiliate whose tier status is known and names a next
    tier, with [required] the [salesRequiredForUpgrade] of the current
    tier ([null] counting as 0) and [capacity] what [checkTierCapacity]
    returns for the next tier: [canUpgrade] refuses with the reason
    "Need <required - totalSales> more sales" when
    [totalSales < required], without asking for the capacity; refuses
    with the reason "<nextTier> tier is currently full" and the waitlist
    flag when the sales suffice and [capacity.available] is not positive;
    and answers eligible exactly when the sales suffice and
    [capacity.available > 0].  The two reasons are different texts. *)
Theorem canUpgrade_sales_then_capacity
    (w : World.t TierManager.t) (affiliateId : option string)
    (tier : TierData.t) :
  tierKnown affiliateId w tier ->
  Js.truthy (TierData.nextTier tier) = true ->
  let after := snd (getCurrentTier affiliateId w) in
  let nextTier := orDefault (TierData.nextTier tier) "" in
  let required :=
    TierDefinition.salesRequiredForUpgrade (TierData.tierInfo tier) in
  let shortfall := toNumber required - TierData.totalSales tier in
  let shortfallReason := "Need " +:+ pretty shortfall +:+ " more sales" in
  let fullReason := nextTier +:+ " tier is currently full" in
  exists (capacity : TierCapacity.t) (checked : World.t TierManager.t),
    checkTierCapacity nextTier after = (Normal capacity, checked)
    /\ (TierData.totalSales tier < toNumber required ->
        canUpgrade affiliateId w
        = (Normal (Eligibility.mk false (Some shortfallReason) None None None
                     required (Some (TierData.totalSales tier))
                     (Some shortfall)),
           after))
    /\ (toNumber required <= TierData.totalSales tier ->
        TierCapacity.available capacity <= 0 ->
        canUpgrade affiliateId w
        = (Normal (Eligibility.mk false (Some fullReason) (Some true)
                     None None None None None),
           checked))
    /\ (toNumber required <= TierData.totalSales tier ->
        0 < TierCapacity.available capacity ->
        canUpgrade affiliateId w
        = (Normal (Eligibility.mk true None None (TierData.tier tier)
                     (Some nextTier) required
                     (Some (TierData.totalSales tier)) None),
           checked))
    /\ shortfallReason <> fullReason
    /\ (exists eligibility,
          fst (canUpgrade affiliateId w) = Normal eligibility
          /\ (Eligibility.canUpgrade eligibility = true
              <-> toNumber required <= TierData.totalSales tier
                  /\ 0 < TierCapacity.available capacity)).
Proof.
  unfold tierKnown. intros Hknown Hnext. cbv zeta.
  unfold canUpgrade, bind.
  destruct (getCurrentTier affiliateId w) as [[[known|]|e] after];
    simpl in Hknown; try discriminate.
  injection Hknown as ->. simpl. rewrite Hnext. simpl.
  destruct (total_checkTierCapacity
              (orDefault (TierData.nextTier tier) "") after)
    as (capacity & checked & Hcheck).
  exists capacity, checked. rewrite Hcheck.
  split; [reflexivity|].
  set (required := toNumber
         (TierDefinition.salesRequiredForUpgrade (TierData.tierInfo tier))).
  destruct (Z.leb_spec required (TierData.totalSales tier)) as [Hle | Hlt];
    cbv beta iota; rewrite ?Hcheck;
    [destruct (Z.ltb_spec 0 (TierCapacity.available capacity))|];
    unfold ret;
    (split; [intros; try reflexivity; lia|]);
    (split; [intros; try reflexivity; lia|]);
    (split; [intros; try reflexivity; lia|]);
    (split; [apply shortfall_reason_is_not_full_reason|]);
    (eexists; split; [reflexivity|]); simpl;
    (split; [try discriminate; try done | intros [? ?]; try done; lia]).
Qed.

End ManagerAdmission.

(** ** TierManager: the tier for a new signup *)

Section ManagerSignup.
Import TierManager.

(** A [try] around a fetch whose failure branches all yield [fallback]. *)
Lemma tryCatch_fetch_fails {S A : Type} (k : Data.t -> Eff S A) (fallback : A)
    (w : World.t S) :
  fetchFails w ->
  (forall data w', Data.success data = false -> k data w' = (Normal fallback, w')) ->
  tryCatch (bind fetchJson k) (fun _ => ret fallback) w
  = (Normal fallback, consumed w).
Proof.
  unfold fetchFails, consumed, tryCatch, bind, fetchJson, ret.
  destruct (World.network w) as [|[elapsed [| |data]] rest]; simpl; try done.
  intros Hfailed Hk. apply negb_true_iff in Hfailed.
  by rewrite (Hk data _ Hfailed).
Qed.

Lemma getAllTierCapacities_fails (w : World.t TierManager.t) :
  fetchFails w -> getAllTierCapacities w = (Normal [], consumed w).
Proof.
  intros Hfails. unfold getAllTierCapacities.
  apply tryCatch_fetch_fails; [done|]. by intros data w' ->.
Qed.

Lemma getAllTierCapacities_succeeds (w : World.t TierManager.t)
    (elapsed : Z) (data : Data.t) (rest : list (Z * FetchOutcome))
    (c : Capacity.t) :
  World.network w = (elapsed, Json data) :: rest ->
  Data.success data = true ->
  Data.capacity data = Some c ->
  getAllTierCapacities w
  = (Normal (Capacity.tiers c),
     World.mk (World.self w) (World.clock w + elapsed) rest).
Proof.
  intros Hnet Hsuccess Hcapacity.
  unfold getAllTierCapacities, tryCatch, bind, fetchJson, ret.
  rewrite Hnet. simpl. by rewrite Hsuccess, Hcapacity.
Qed.

Lemma firstAvailable_none (entries : list (string * TierCapacity.t)) :
  firstAvailable entries = None
  <-> Forall (fun e => availableOfEntry e <= 0) entries.
Proof.
  induction entries as [|[tier capacity] rest IH]; simpl.
  - split; [constructor | reflexivity].
  - unfold availableOfEntry at 1.
    destruct (Z.ltb_spec 0 (TierCapacity.available capacity)); split.
    + discriminate.
    + intros H'. apply Forall_cons in H' as [H' _]. simpl in H'. lia.
    + intros H'. apply Forall_cons. split; [simpl; lia | by apply IH].
    + intros H'. apply Forall_cons in H' as [_ H']. by apply IH.
Qed.

Lemma firstAvailable_first (before after : list (string * TierCapacity.t))
    (tier : string) (capacity : TierCapacity.t) :
  Forall (fun e => availableOfEntry e <= 0) before ->
  0 < TierCapacity.available capacity ->
  firstAvailable (before ++ (tier, capacity) :: after)%list
  = Some (TierAssignment.mk tier (property CONFIG.TIERS tier) capacity).
Proof.
  induction 1 as [|[t c] rest Hle _ IH]; intros Hpos; simpl.
  - destruct (Z.ltb_spec 0 (TierCapacity.available capacity)); [done | lia].
  - unfold availableOfEntry in Hle. simpl in Hle.
    destruct (Z.ltb_spec 0 (TierCapacity.available c)); [lia | by apply IH].
Qed.

(** C3, as the code has it.  [getAvailableTier] fetches the capacity and
    walks the tiers of the reply in the order the reply lists them: it
    answers the first listed tier whose [available] is positive, with its
    configuration and capacity, and [null] exactly when no listed tier has
    a positive [available]; a failed fetch also gives [null].  When the
    reply lists NEWBIE, ACTIVE, PRO, ELITE in that order, this is the first
    tier in configuration order with something available. *)
Theorem getAvailableTier_first_listed (w : World.t TierManager.t) :
  (forall elapsed data rest c,
      World.network w = (elapsed, Json data) :: rest ->
      Data.success data = true ->
      Data.capacity data = Some c ->
      getAvailableTier w
      = (Normal (firstAvailable (Capacity.tiers c)),
         World.mk (World.self w) (World.clock w + elapsed) rest))
  /\ (fetchFails w -> getAvailableTier w = (Normal None, consumed w))
  /\ (forall before tier capacity after,
      Forall (fun e => availableOfEntry e <= 0) before ->
      0 < TierCapacity.available capacity ->
      firstAvailable (before ++ (tier, capacity) :: after)%list
      = Some (TierAssignment.mk tier (property CONFIG.TIERS tier) capacity))
  /\ (forall entries,
      firstAvailable entries = None
      <-> Forall (fun e => availableOfEntry e <= 0) entries)
  /\ (forall newbie active pro elite,
      let entries := inConfigOrder newbie active pro elite in
      assignedTier (Normal (firstAvailable entries))
      = specAvailableTier entries).
Proof.
  split; [|split; [|split; [|split]]].
  - intros elapsed data rest c Hnet Hsuccess Hcapacity.
    unfold getAvailableTier, bind.
    by rewrite (getAllTierCapacities_succeeds w elapsed data rest c).
  - intros Hfails. unfold getAvailableTier, bind.
    by rewrite getAllTierCapacities_fails.
  - intros before tier capacity after. apply firstAvailable_first.
  - apply firstAvailable_none.
  - intros newbie active pro elite entries. subst entries.
    unfold specAvailableTier.
    change (map fst CONFIG.TIERS) with ["NEWBIE"; "ACTIVE"; "PRO"; "ELITE"].
    cbn [find].
    rewrite specAvailable_newbie, specAvailable_active, specAvailable_pro,
      specAvailable_elite.
    unfold inConfigOrder. cbn [firstAvailable].
    repeat match goal with
           | |- context [0 <? ?a] => destruct (0 <? a)
           end; reflexivity.
Qed.

End ManagerSignup.

(** C3 as stated fails: NEWBIE comes first in the configuration and has
    500 places available, and the answer is ELITE, the tier the reply
    lists first. *)
Lemma getAvailableTier_order_counterexample :
  assignedTier (fst (TierManager.getAvailableTier eliteFirstWorld))
  <> specAvailableTier (Capacity.tiers eliteFirstSnapshot).
Proof. vm_compute. discriminate. Qed.

Example getAvailableTier_order_values :
  assignedTier (fst (TierManager.getAvailableTier eliteFirstWorld))
  = Some "ELITE"
  /\ specAvailableTier (Capacity.tiers eliteFirstSnapshot) = Some "NEWBIE".
Proof. split; reflexivity. Qed.

(** ** Failed fetches *)

Section FailureSemantics.
Import TierManager.

Lemma fetchFails_evicted (key : string) (w : World.t TierManager.t) :
  fetchFails w -> fetchFails (evicted key w).
Proof.
  unfold fetchFails. by destruct (evicted_clock_network key w) as [_ ->].
Qed.

Lemma getCurrentTier_eq (affiliateId : option string)
    (w : World.t TierManager.t) :
  getCurrentTier affiliateId w
  = if negb (Js.truthy (effectiveId affiliateId w)) then (Normal None, w)
    else
      match fresh (tierKey affiliateId w) w with
      | Some (TierValue cached) =>
          (Normal (Some cached), evicted (tierKey affiliateId w) w)
      | _ =>
          fetchTierStatus (tierKey affiliateId w)
            (evicted (tierKey affiliateId w) w)
      end.
Proof.
  unfold getCurrentTier, bind, this. cbv beta iota zeta.
  change (orCurrent affiliateId (currentAffiliateId (World.self w)))
    with (effectiveId affiliateId w).
  destruct (Js.truthy (effectiveId affiliateId w)); [|reflexivity].
  cbn [negb].
  change ("tier_" +:+ orDefault (effectiveId affiliateId w) "")
    with (tierKey affiliateId w).
  rewrite getCached_eq.
  by destruct (fresh (tierKey affiliateId w) w) as [[?|?]|].
Qed.

Lemma getCurrentTier_no_id (affiliateId : option string)
    (w : World.t TierManager.t) :
  Js.truthy (effectiveId affiliateId w) = false ->
  getCurrentTier affiliateId w = (Normal None, w).
Proof.
  intros Htruthy. by rewrite getCurrentTier_eq, Htruthy.
Qed.

Lemma getCurrentTier_hit (affiliateId : option string)
    (w : World.t TierManager.t) (tier : TierData.t) :
  Js.truthy (effectiveId affiliateId w) = true ->
  fresh (tierKey affiliateId w) w = Some (TierValue tier) ->
  getCurrentTier affiliateId w = (Normal (Some tier), w).
Proof.
  intros Htruthy Hfresh. rewrite getCurrentTier_eq, Htruthy, Hfresh.
  by rewrite (fresh_evicted _ _ _ Hfresh).
Qed.

Lemma getCurrentTier_miss_fails (affiliateId : option string)
    (w : World.t TierManager.t) :
  Js.truthy (effectiveId affiliateId w) = true ->
  fresh (tierKey affiliateId w) w = None ->
  fetchFails w ->
  getCurrentTier affiliateId w
  = (Normal None, consumed (evicted (tierKey affiliateId w) w)).
Proof.
  intros Htruthy Hfresh Hfails.
  rewrite getCurrentTier_eq, Htruthy, Hfresh. cbn [negb].
  apply tryCatch_fetch_fails; [by apply fetchFails_evicted|].
  by intros data w' ->.
Qed.

Lemma checkTierCapacity_miss_fails (tierName : string)
    (w : World.t TierManager.t) :
  fresh (capacityKey tierName) w = None ->
  fetchFails w ->
  checkTierCapacity tierName w
  = (Normal noCapacity, consumed (evicted (capacityKey tierName) w)).
Proof.
  unfold capacityKey, checkTierCapacity, bind.
  intros Hfresh Hfails. rewrite getCached_eq, Hfresh.
  apply tryCatch_fetch_fails; [by apply fetchFails_evicted|].
  by intros data w' ->.
Qed.

Lemma requestUpgrade_fetch_fails (affiliateId : option string)
    (w granted : World.t TierManager.t) (eligibility : Eligibility.t) :
  canUpgrade affiliateId w = (Normal eligibility, granted) ->
  Eligibility.canUpgrade eligibility = true ->
  fetchFails granted ->
  exists message,
    requestUpgrade affiliateId w
    = (Normal (UpgradeResult.mk false None (Some message)), consumed granted).
Proof.
  intros Hcan Heligible Hfails. unfold requestUpgrade, bind.
  rewrite Hcan, Heligible. simpl.
  unfold fetchFails, consumed, tryCatch, bind, fetchJson, ret in *.
  destruct (World.network granted) as [|[elapsed [| |data]] rest]; simpl;
    try by eexists.
  simpl in Hfails. apply negb_true_iff in Hfails. rewrite Hfails.
  by eexists.
Qed.

(** C8.  No method of the two classes ever throws, whatever the network
    does.  When the fetch fails (no reply, a transport error, a body that
    is not JSON, or [success: false]):
    - [fetchCapacity] resolves to [null] and leaves every field of the
      monitor as it was, so the held snapshot stays;
    - with no fresh entry in the cache, [getCurrentTier] resolves to
      [null], [isActionAllowed] to a refusal with the reason "Unable to
      verify tier", [canUpgrade] to a refusal with the reason "Already at
      max tier", [requestUpgrade] to a failure with that message;
    - with no fresh entry in the cache, [checkTierCapacity] resolves to the
      capacity with nothing used, no limit and nothing available;
    - [getAllTierCapacities] resolves to the empty object and
      [getAvailableTier] to [null];
    - [requestUpgrade] of an eligible affiliate resolves to a failure with
      a message, and the cache is not cleared.
    A fresh cached tier status is returned without any fetch. *)
Theorem fetch_failure_defaults :
  (total CapacityMonitor.fetchCapacity
   /\ (forall affiliateId, total (getCurrentTier affiliateId))
   /\ (forall action affiliateId, total (isActionAllowed action affiliateId))
   /\ (forall affiliateId, total (canUpgrade affiliateId))
   /\ (forall affiliateId, total (requestUpgrade affiliateId))
   /\ (forall tierName, total (checkTierCapacity tierName))
   /\ total getAllTierCapacities
   /\ total getAvailableTier)
  /\ (forall w : World.t CapacityMonitor.t,
      fetchFails w ->
      CapacityMonitor.fetchCapacity w = (Normal None, consumed w)
      /\ World.self (snd (CapacityMonitor.fetchCapacity w)) = World.self w)
  /\ (forall (w : World.t TierManager.t) (affiliateId : option string)
             (action : string),
      Js.truthy (effectiveId affiliateId w) = true ->
      fresh (tierKey affiliateId w) w = None ->
      fetchFails w ->
      fst (getCurrentTier affiliateId w) = Normal None
      /\ fst (isActionAllowed action affiliateId w)
         = Normal (Decision.mk false (Some "Unable to verify tier")
                     None None None)
      /\ fst (canUpgrade affiliateId w)
         = Normal (Eligibility.mk false (Some "Already at max tier")
                     None None None None None None)
      /\ fst (requestUpgrade affiliateId w)
         = Normal (UpgradeResult.mk false None (Some "Already at max tier")))
  /\ (forall (w : World.t TierManager.t) (tierName : string),
      fresh (capacityKey tierName) w = None ->
      fetchFails w ->
      fst (checkTierCapacity tierName w) = Normal noCapacity)
  /\ (forall w : World.t TierManager.t,
      fetchFails w ->
      fst (getAllTierCapacities w) = Normal []
      /\ fst (getAvailableTier w) = Normal None)
  /\ (forall (w granted : World.t TierManager.t) affiliateId eligibility,
      canUpgrade affiliateId w = (Normal eligibility, granted) ->
      Eligibility.canUpgrade eligibility = true ->
      fetchFails granted ->
      exists message,
        fst (requestUpgrade affiliateId w)
        = Normal (UpgradeResult.mk false None (Some message))
        /\ cache (World.self (snd (requestUpgrade affiliateId w)))
           = cache (World.self granted))
  /\ (forall (w : World.t TierManager.t) affiliateId tier,
      Js.truthy (effectiveId affiliateId w) = true ->
      fresh (tierKey affiliateId w) w = Some (TierValue tier) ->
      getCurrentTier affiliateId w = (Normal (Some tier), w)).
Proof.
  split; [|split; [|split; [|split; [|split; [|split]]]]].
  - repeat split; intros.
    + apply total_fetchCapacity.
    + apply total_getCurrentTier.
    + apply total_isActionAllowed.
    + apply total_canUpgrade.
    + apply total_requestUpgrade.
    + apply total_checkTierCapacity.
    + apply total_getAllTierCapacities.
    + apply total_getAvailableTier.
  - intros w Hfails. rewrite fetchCapacity_fails by done.
    split; [done|]. unfold consumed. simpl.
    by destruct (World.network w) as [|[? ?] ?].
  - intros w affiliateId action Htruthy Hfresh Hfails.
    pose proof (getCurrentTier_miss_fails affiliateId w Htruthy Hfresh Hfails)
      as Htier.
    unfold isActionAllowed, requestUpgrade, canUpgrade, bind.
    by rewrite Htier.
  - intros w tierName Hfresh Hfails.
    by rewrite checkTierCapacity_miss_fails.
  - intros w Hfails. unfold getAvailableTier, bind.
    by rewrite getAllTierCapacities_fails.
  - intros w granted affiliateId eligibility Hcan Heligible Hfails.
    destruct (requestUpgrade_fetch_fails affiliateId w granted eligibility
                Hcan Heligible Hfails) as (message & ->).
    exists message. split; [done|]. unfold consumed. simpl.
    by destruct (World.network granted) as [|[? ?] ?].
  - intros w affiliateId tier. apply getCurrentTier_hit.
Qed.

End FailureSemantics.

(** ** The theorems at concrete inputs *)

(** Clicks at 82%: the status is "warning", on the counters
    [80 * 5000 < 100 * 4100 <= 95 * 5000]. *)
Lemma getSystemStatus_classification_witness :
  CapacityMonitor.getSystemStatus scenarioMonitor
  = Status.mk "warning" "yellow" CapacityMonitor.warningMessage
      (Some (CapacityMonitor.clickPercent scenarioSnapshot))
  /\ (Status.status (CapacityMonitor.getSystemStatus scenarioMonitor)
      = "warning"
      <-> 80 * 5000 < 100 * 4100 <= 95 * 5000).
Proof.
  destruct (getSystemStatus_classification scenarioMonitor)
    as (_ & Hp & Hcounters).
  split.
  - apply (proj1 (proj2 (Hp scenarioSnapshot eq_refl))); reflexivity.
  - assert (Hlimit : 0 < Counter.limit (Capacity.clicks scenarioSnapshot))
      by reflexivity.
    apply (proj1 (proj2 (Hcounters scenarioSnapshot eq_refl Hlimit))).
Defined.

(** PRO at 98.9%: signups pause although the clicks are at 82%. *)
Lemma shouldPauseSignups_iff_witness :
  CapacityMonitor.shouldPauseSignups scenarioMonitor = true.
Proof.
  apply (proj1 (proj2 (shouldPauseSignups_iff scenarioMonitor
                         scenarioSnapshot eq_refl))).
  exists "PRO", (TierCapacity.mk 89 90 1 (989 # 10)).
  split; [left; reflexivity | reflexivity].
Defined.

(** Two tiers tie at 50: the one the snapshot lists first is recommended. *)
Lemma getRecommendedTier_first_largest_witness :
  CapacityMonitor.getRecommendedTier
    (CapacityMonitor.mk (Some tiedSnapshot) ∅ []) = "PRO".
Proof.
  apply (getRecommendedTier_first_largest
           (CapacityMonitor.mk (Some tiedSnapshot) ∅ []))
    with (c := tiedSnapshot) (before := [])
         (data := TierCapacity.mk 40 90 50 (400 # 9))
         (after := [("ACTIVE", TierCapacity.mk 350 400 50 (875 # 10))]).
  - reflexivity.
  - reflexivity.
  - simpl. lia.
  - constructor.
  - repeat constructor. unfold availableOfEntry. simpl. lia.
Defined.

(** Three refreshes, the percentage dropping in between: three keys, each
    once. *)
Lemma warnings_once_per_key_witness :
  exists new : list Warning.t,
    CapacityMonitor.displayed
      (World.self
         (run [Refresh; Refresh; Refresh]
            (World.mk CapacityMonitor.initial 0
               [reply scenarioSnapshot; reply dipSnapshot;
                reply scenarioSnapshot])))
    = ([] ++ new)%list
    /\ NoDup (keysOf new)
    /\ (forall k, k ∈ keysOf new -> k ∉ (∅ : gset string))
    /\ CapacityMonitor.warningsShown
         (World.self
            (run [Refresh; Refresh; Refresh]
               (World.mk CapacityMonitor.initial 0
                  [reply scenarioSnapshot; reply dipSnapshot;
                   reply scenarioSnapshot])))
       = ∅ ∪ list_to_set (keysOf new).
Proof.
  apply (proj1 warnings_once_per_key [Refresh; Refresh; Refresh]
           (World.mk CapacityMonitor.initial 0
              [reply scenarioSnapshot; reply dipSnapshot;
               reply scenarioSnapshot])).
  intros Hreset.
  repeat (apply elem_of_cons in Hreset as [Hreset | Hreset];
          [discriminate|]).
  by apply elem_of_nil in Hreset.
Defined.

(** A value stored at time 0 for 100 ms is there at 50 and gone at 150. *)
Lemma cache_time_to_live_witness :
  let stored :=
    World.self
      (snd (TierManager.setCached "capacity_PRO"
              (CapacityValue (TierCapacity.mk 89 90 1 (989 # 10)))
              (Some 100) cacheWorld)) in
  fst (TierManager.getCached "capacity_PRO" (World.mk stored 50 []))
  = Normal (Some (CapacityValue (TierCapacity.mk 89 90 1 (989 # 10))))
  /\ fst (TierManager.getCached "capacity_PRO" (World.mk stored 150 []))
     = Normal None.
Proof.
  intros stored.
  pose proof (cache_time_to_live cacheWorld "capacity_PRO"
                (CapacityValue (TierCapacity.mk 89 90 1 (989 # 10)))
                (Some 100)) as H.
  cbv zeta in H. destruct H as (_ & _ & _ & Hget & _).
  split.
  - apply (Hget 50 []). reflexivity.
  - apply (Hget 150 []). simpl. lia.
Defined.

(** No clicks left: the click is refused with the counters attached. *)
Lemma isActionAllowed_by_action_witness :
  fst (TierManager.isActionAllowed "click" None activeWorld)
  = Normal (Decision.mk false (Some "Daily click limit reached")
              (Some 50) (Some 50) (Some 0)).
Proof.
  apply (isActionAllowed_by_action activeWorld "click" None
           (TierManager.tierDataOf activeStatus)).
  - reflexivity.
  - reflexivity.
  - simpl. lia.
Defined.

(** 60 sales where 50 are required, PRO full: refused for the full tier,
    not for the sales. *)
Lemma canUpgrade_sales_then_capacity_witness :
  fst (TierManager.canUpgrade None activeWorld)
  = Normal (Eligibility.mk false (Some "PRO tier is currently full")
              (Some true) None None None None None).
Proof.
  destruct (canUpgrade_sales_then_capacity activeWorld None
              (TierManager.tierDataOf activeStatus) eq_refl eq_refl)
    as (capacity & checked & Hcheck & _ & Hfull & _).
  vm_compute in Hcheck. injection Hcheck as <- <-.
  rewrite Hfull; [reflexivity | simpl; lia | simpl; lia].
Defined.

(** The reply lists ELITE first and ELITE has room. *)
Lemma getAvailableTier_first_listed_witness :
  assignedTier (fst (TierManager.getAvailableTier eliteFirstWorld))
  = Some "ELITE".
Proof.
  destruct (getAvailableTier_first_listed eliteFirstWorld) as (Hreply & _).
  rewrite (Hreply 80
             (Data.mk true (Some eliteFirstSnapshot) None None None None
                None None None None None None None None)
             [] eliteFirstSnapshot eq_refl eq_refl eq_refl).
  reflexivity.
Defined.

(** A transport error leaves the monitor as it was; [success: false]
    makes the click unverifiable. *)
Lemma fetch_failure_defaults_witness :
  (CapacityMonitor.fetchCapacity offlineMonitor
   = (Normal None, consumed offlineMonitor)
   /\ World.self (snd (CapacityMonitor.fetchCapacity offlineMonitor))
      = scenarioMonitor)
  /\ fst (TierManager.isActionAllowed "click" None offlineManager)
     = Normal (Decision.mk false (Some "Unable to verify tier")
                 None None None).
Proof.
  destruct fetch_failure_defaults as (_ & Hrefresh & Hmanager & _).
  split.
  - apply (Hrefresh offlineMonitor). reflexivity.
  - apply (Hmanager offlineManager None "click"); reflexivity.
Defined.

(** * Further properties *)

(** ** CapacityMonitor *)

Section MonitorFurther.
Import CapacityMonitor.

(** X1.  When [getSystemStatus] answers "critical", whose message says
    that new signups are paused, [shouldPauseSignups] does answer true. *)
Theorem critical_status_pauses_signups (m : CapacityMonitor.t) :
  Status.status (getSystemStatus m) = "critical" ->
  shouldPauseSignups m = true.
Proof.
  unfold getSystemStatus, shouldPauseSignups.
  destruct (currentCapacity m) as [c|]; [|discriminate].
  cbv zeta.
  destruct (Js.gt (clickPercent c) 95) eqn:H95.
  - intros _. apply (gt_mono _ 90 95) in H95; [|lra].
    rewrite H95. by destruct (anyTierOver95 (Capacity.tiers c)).
  - by destruct (Js.gt (clickPercent c) 80).
Qed.

Lemma lookupTier_listed (entries : list (string * TierCapacity.t))
    (tierName : string) :
  In tierName (map fst entries) ->
  exists data, lookupTier entries tierName = Some data
               /\ In (tierName, data) entries.
Proof.
  induction entries as [|[name data] rest IH]; simpl; [done|].
  intros Hin. destruct (String.eqb_spec name tierName) as [-> | Hne].
  - exists data. split; [done | by left].
  - destruct Hin as [Heq | Hin]; [done|].
    destruct (IH Hin) as (d & Hd & Hd'). exists d. split; [done | by right].
Qed.

Lemma lookupTier_unique (entries : list (string * TierCapacity.t))
    (tierName : string) (data : TierCapacity.t) :
  NoDup (map fst entries) ->
  In (tierName, data) entries ->
  lookupTier entries tierName = Some data.
Proof.
  induction entries as [|[name d] rest IH]; simpl; [done|].
  intros Hnodup Hin. apply NoDup_cons in Hnodup as [Hfresh Hnodup].
  destruct Hin as [Heq | Hin].
  - injection Heq as -> ->. by rewrite String.eqb_refl.
  - destruct (String.eqb_spec name tierName) as [-> | Hne]; [|by apply IH].
    exfalso. apply Hfresh. apply list_elem_of_In.
    apply in_map_iff. by exists (tierName, data).
Qed.

Lemma anyTierOver95_false (entries : list (string * TierCapacity.t)) :
  anyTierOver95 entries = false ->
  forall tier data,
    In (tier, data) entries -> (TierCapacity.percentFull data <= 95)%Q.
Proof.
  intros Hnone tier data Hin.
  destruct (Qlt_le_dec 95 (TierCapacity.percentFull data)) as [Hlt|]; [|done].
  assert (anyTierOver95 entries = true); [|congruence].
  apply anyTierOver95_true. by exists tier, data.
Qed.

(** X2.  While [shouldPauseSignups] answers false with a snapshot held,
    [getTierCapacity] of every tier the snapshot lists reports at most 95%
    full, and the click percentage does not exceed 90: for a positive
    limit, [100 * used <= 90 * limit]. *)
Theorem open_signups_bound_every_tier (m : CapacityMonitor.t) (c : Capacity.t) :
  holding c m ->
  shouldPauseSignups m = false ->
  (forall tierName,
      lists c tierName ->
      (TierCapacity.percentFull (getTierCapacity m tierName) <= 95)%Q)
  /\ Js.gt (clickPercent c) 90 = false
  /\ (0 < Counter.limit (Capacity.clicks c) ->
      100 * Counter.used (Capacity.clicks c)
      <= 90 * Counter.limit (Capacity.clicks c)).
Proof.
  unfold holding, shouldPauseSignups, lists, getTierCapacity.
  intros -> Hopen.
  destruct (anyTierOver95 (Capacity.tiers c)) eqn:Htiers; [discriminate|].
  split; [|split; [done|]].
  - intros tierName Hlisted.
    destruct (lookupTier_listed _ _ Hlisted) as (data & -> & Hin).
    by apply (anyTierOver95_false _ Htiers tierName).
  - intros Hlimit.
    pose proof (clickPercent_gt c 90 Hlimit) as H90.
    change (inject_Z 90) with 90%Q in H90.
    apply not_true_iff_false in Hopen.
    apply Z.nlt_ge. intros Hlt. by apply Hopen, H90.
Qed.

Lemma recommendLoop_cases (entries : list (string * TierCapacity.t)) :
  forall bestTier mostSpace,
    (recommendLoop entries bestTier mostSpace = bestTier
     /\ Forall (fun e => availableOfEntry e <= mostSpace) entries)
    \/ (exists data,
          In (recommendLoop entries bestTier mostSpace, data) entries
          /\ mostSpace < TierCapacity.available data
          /\ Forall (fun e => availableOfEntry e
                              <= TierCapacity.available data) entries).
Proof.
  induction entries as [|[tier data] rest IH]; intros bestTier mostSpace.
  - left. by split.
  - cbn [recommendLoop].
    destruct (Z.ltb_spec mostSpace (TierCapacity.available data)) as [Hlt | Hge].
    + right.
      destruct (IH tier (TierCapacity.available data))
        as [[-> Hrest] | (d & Hin & Hmore & Hrest)].
      * exists data. split; [by left|]. split; [done|].
        apply Forall_cons. split; [unfold availableOfEntry; simpl; lia | done].
      * exists d. split; [by right|]. split; [lia|].
        apply Forall_cons. split; [unfold availableOfEntry; simpl; lia | done].
    + destruct (IH bestTier mostSpace)
        as [[-> Hrest] | (d & Hin & Hmore & Hrest)].
      * left. split; [done|].
        apply Forall_cons. split; [unfold availableOfEntry; simpl; lia | done].
      * right. exists d. split; [by right|]. split; [done|].
        apply Forall_cons. split; [unfold availableOfEntry; simpl; lia | done].
Qed.

(** X3.  With a snapshot whose tiers are listed once each, either no tier
    has anything available and [getRecommendedTier] answers "NEWBIE", or
    the recommended tier is one the snapshot lists, [getTierCapacity]
    reports a positive [available] for it, and no listed tier has more
    available. *)
Theorem recommended_tier_has_most_room (m : CapacityMonitor.t) (c : Capacity.t) :
  holding c m ->
  uniqueTiers c ->
  let recommended := getRecommendedTier m in
  (Forall (fun e => availableOfEntry e <= 0) (Capacity.tiers c)
   /\ recommended = "NEWBIE")
  \/ (lists c recommended
      /\ 0 < TierCapacity.available (getTierCapacity m recommended)
      /\ Forall (fun e => availableOfEntry e
                          <= TierCapacity.available
                               (getTierCapacity m recommended))
           (Capacity.tiers c)).
Proof.
  unfold holding, uniqueTiers, lists, getRecommendedTier, getTierCapacity.
  intros -> Hunique. cbv zeta.
  destruct (recommendLoop_cases (Capacity.tiers c) "NEWBIE" 0)
    as [[-> Hnone] | (data & Hin & Hpos & Hmost)].
  - left. by split.
  - right. rewrite (lookupTier_unique _ _ _ Hunique Hin).
    split; [|by split].
    apply in_map_iff. by exists (recommendLoop (Capacity.tiers c) "NEWBIE" 0, data).
Qed.

End MonitorFurther.

Section MonitorFormatting.
Import CapacityMonitor.



End MonitorFormatting.

Section MonitorEvaluation.
Import CapacityMonitor.

Lemma checkWarnings_keeps_snapshot (m : CapacityMonitor.t) :
  currentCapacity (checkWarnings m) = currentCapacity m.
Proof.
  destruct (currentCapacity m) as [c|] eqn:Hc.
  - by destruct (checkWarnings_holding m c Hc) as (new & -> & _).
  - by rewrite checkWarnings_without_snapshot.
Qed.

(** X5.  A reply with [success: true] replaces the held snapshot by the
    [capacity] of the reply, whatever was held, and [fetchCapacity]
    resolves to that capacity; what the page was shown before stays.  The
    code does not look whether the reply has a [capacity]: when it has
    none, the monitor is left without a snapshot, [getSystemStatus]
    answers "unknown" again, and the recorded keys stay as they were. *)
Theorem successful_refresh_replaces_snapshot
    (w : World.t CapacityMonitor.t) (elapsed : Z) (data : Data.t)
    (rest : list (Z * FetchOutcome)) :
  World.network w = (elapsed, Json data) :: rest ->
  Data.success data = true ->
  let after := World.self (snd (fetchCapacity w)) in
  fst (fetchCapacity w) = Normal (Data.capacity data)
  /\ getCurrentCapacity after = Data.capacity data
  /\ (exists new, displayed after = (displayed (World.self w) ++ new)%list)
  /\ (Data.capacity data = None ->
      Status.status (getSystemStatus after) = "unknown"
      /\ warningsShown after = warningsShown (World.self w)
      /\ displayed after = displayed (World.self w)).
Proof.
  intros Hnet Hsuccess.
  rewrite (fetchCapacity_succeeds w elapsed data rest Hnet Hsuccess).
  cbv zeta. cbn [fst snd World.self]. unfold getCurrentCapacity.
  split; [done|]. split; [by rewrite checkWarnings_keeps_snapshot|].
  destruct (Data.capacity data) as [c|] eqn:Hc.
  - destruct (checkWarnings_holding
                (CapacityMonitor.mk (Some c) (warningsShown (World.self w))
                   (displayed (World.self w))) c eq_refl)
      as (new & -> & _).
    split; [by exists new | discriminate].
  - rewrite checkWarnings_without_snapshot by done.
    split; [exists []; simpl; by rewrite app_nil_r | done].
Qed.

(** X6.  Evaluating the warnings twice on the same snapshot is the same
    as evaluating them once: the second evaluation records nothing and
    hands nothing to the page. *)
Theorem checkWarnings_idempotent (m : CapacityMonitor.t) :
  checkWarnings (checkWarnings m) = checkWarnings m.
Proof.
  destruct (currentCapacity m) as [c|] eqn:Hc.
  - destruct (checkWarnings_holding m c Hc) as (new & Hm & _ & Hnew).
    rewrite Hm.
    destruct (checkWarnings_holding
                (CapacityMonitor.mk (Some c)
                   (warningsShown m ∪ list_to_set (keysOf new))
                   (displayed m ++ new)%list) c eq_refl)
      as (again & -> & _ & Hagain).
    simpl in Hagain.
    assert (again = []) as ->.
    { destruct again as [|w again]; [done|]. exfalso.
      assert (Hin : thresholdKey w ∈ keysOf (w :: again)) by (by left).
      apply Hagain in Hin as [Hcrossed Hfresh]. apply Hfresh.
      destruct (decide (thresholdKey w ∈ warningsShown m)); [set_solver|].
      apply elem_of_union. right. apply elem_of_list_to_set.
      by apply Hnew. }
    simpl. rewrite app_nil_r. f_equal. set_solver.
  - by rewrite !(checkWarnings_without_snapshot m Hc).
Qed.










End MonitorEvaluation.

(** ** TierManager *)

Section ManagerCaching.
Import TierManager.

Lemma evicted_fields (key : string) (w : World.t TierManager.t) :
  currentAffiliateId (World.self (evicted key w))
  = currentAffiliateId (World.self w)
  /\ cacheTTL (World.self (evicted key w)) = cacheTTL (World.self w).
Proof.
  unfold evicted.
  destruct (cache (World.self w) !! key) as [entry|]; [|done].
  by destruct (World.clock w <? CacheEntry.expiry entry).
Qed.

Lemma evicted_miss (key : string) (w : World.t TierManager.t) :
  fresh key w = None -> fresh key (evicted key w) = None.
Proof.
  unfold fresh, evicted.
  destruct (cache (World.self w) !! key) as [entry|] eqn:Hkey;
    [|by rewrite Hkey].
  destruct (World.clock w <? CacheEntry.expiry entry); [done|].
  intros _. simpl. by rewrite lookup_delete_eq.
Qed.

Lemma fetchTierStatus_succeeds (key : string) (w : World.t TierManager.t)
    (elapsed : Z) (data : Data.t) (rest : list (Z * FetchOutcome)) :
  World.network w = (elapsed, Json data) :: rest ->
  Data.success data = true ->
  fetchTierStatus key w
  = (Normal (Some (tierDataOf data)),
     World.mk
       (withCache (World.self w)
          (<[key := CacheEntry.mk (TierValue (tierDataOf data))
                      (World.clock w + elapsed + cacheTTL (World.self w))]>
             (cache (World.self w))))
       (World.clock w + elapsed) rest).
Proof.
  intros Hnet Hsuccess.
  unfold fetchTierStatus, tryCatch, bind, fetchJson.
  rewrite Hnet. cbn [fst snd]. rewrite Hsuccess. reflexivity.
Qed.

(** X8.  A tier status fetched with success is served from the cache for
    [cacheTTL] milliseconds after the reply arrived: [getCurrentTier] for
    the same affiliate returns it without any fetch, whatever the backend
    would answer.  From then on it is not served any more: when the fetch
    then fails, [getCurrentTier] resolves to [null], not to the status it
    held. *)
Theorem tier_status_served_from_cache
    (w : World.t TierManager.t) (affiliateId : option string)
    (elapsed : Z) (data : Data.t) (rest : list (Z * FetchOutcome)) :
  Js.truthy (effectiveId affiliateId w) = true ->
  fresh (tierKey affiliateId w) w = None ->
  World.network w = (elapsed, Json data) :: rest ->
  Data.success data = true ->
  let stored := snd (getCurrentTier affiliateId w) in
  let expiry := World.clock w + elapsed + cacheTTL (World.self w) in
  fst (getCurrentTier affiliateId w) = Normal (Some (tierDataOf data))
  /\ (forall now network,
      now < expiry ->
      getCurrentTier affiliateId (later stored now network)
      = (Normal (Some (tierDataOf data)), later stored now network))
  /\ (forall now network,
      expiry <= now ->
      fetchFails (later stored now network) ->
      fst (getCurrentTier affiliateId (later stored now network))
      = Normal None).
Proof.
  intros Htruthy Hfresh Hnet Hsuccess.
  set (key := tierKey affiliateId w) in *.
  destruct (evicted_clock_network key w) as [Hclock Hnetwork].
  destruct (evicted_fields key w) as [Hid Httl].
  assert (Hcall :
    getCurrentTier affiliateId w
    = (Normal (Some (tierDataOf data)),
       World.mk
         (withCache (World.self (evicted key w))
            (<[key := CacheEntry.mk (TierValue (tierDataOf data))
                        (World.clock w + elapsed + cacheTTL (World.self w))]>
               (cache (World.self (evicted key w)))))
         (World.clock w + elapsed) rest)).
  { rewrite getCurrentTier_eq, Htruthy. fold key. rewrite Hfresh. cbn [negb].
    rewrite (fetchTierStatus_succeeds key (evicted key w) elapsed data rest)
      by (by rewrite ?Hnetwork).
    by rewrite Hclock, Httl. }
  rewrite Hcall. cbv zeta. cbn [fst snd].
  set (stored := World.mk _ _ rest).
  assert (Hsame : forall now network,
             effectiveId affiliateId (later stored now network)
             = effectiveId affiliateId w).
  { intros now network. unfold effectiveId, later, stored, withCache. simpl.
    by rewrite Hid. }
  assert (Hkey : forall now network,
             tierKey affiliateId (later stored now network) = key).
  { intros now network. unfold tierKey. by rewrite Hsame. }
  split; [done|]. split.
  - intros now network Hnow.
    apply getCurrentTier_hit; [by rewrite Hsame|].
    rewrite Hkey. unfold fresh, later, stored, withCache. simpl.
    rewrite lookup_insert_eq. simpl.
    destruct (Z.ltb_spec now
                (World.clock w + elapsed + cacheTTL (World.self w))); [done|lia].
  - intros now network Hnow Hfails.
    rewrite getCurrentTier_miss_fails; [done | by rewrite Hsame | | done].
    rewrite Hkey. unfold fresh, later, stored, withCache. simpl.
    rewrite lookup_insert_eq. simpl.
    destruct (Z.ltb_spec now
                (World.clock w + elapsed + cacheTTL (World.self w))); [lia|done].
Qed.

(** X9.  [checkTierCapacity] caches a capacity it fetched for 60000 ms,
    whatever [cacheTTL] is: within that time it is returned without any
    fetch.  A tier that the fetched capacity does not list gives the
    capacity with nothing available, and nothing is stored for it. *)
Theorem tier_capacity_cached_one_minute
    (w : World.t TierManager.t) (tierName : string)
    (elapsed : Z) (data : Data.t) (rest : list (Z * FetchOutcome))
    (c : Capacity.t) :
  fresh (capacityKey tierName) w = None ->
  World.network w = (elapsed, Json data) :: rest ->
  Data.success data = true ->
  Data.capacity data = Some c ->
  let stored := snd (checkTierCapacity tierName w) in
  (forall capacity,
      property (Capacity.tiers c) tierName = Some capacity ->
      fst (checkTierCapacity tierName w) = Normal capacity
      /\ forall now network,
           now < World.clock w + elapsed + 60000 ->
           checkTierCapacity tierName (later stored now network)
           = (Normal capacity, later stored now network))
  /\ (property (Capacity.tiers c) tierName = None ->
      fst (checkTierCapacity tierName w) = Normal noCapacity
      /\ cache (World.self stored) !! capacityKey tierName = None).
Proof.
  intros Hfresh Hnet Hsuccess Hcapacity.
  set (key := capacityKey tierName) in *.
  destruct (evicted_clock_network key w) as [Hclock Hnetwork].
  pose proof (evicted_miss key w Hfresh) as Hmiss.
  assert (Hcall : checkTierCapacity tierName w
                  = match property (Capacity.tiers c) tierName with
                    | Some capacity =>
                        (Normal capacity,
                         World.mk
                           (withCache (World.self (evicted key w))
                              (<[key := CacheEntry.mk (CapacityValue capacity)
                                          (World.clock w + elapsed + 60000)]>
                                 (cache (World.self (evicted key w)))))
                           (World.clock w + elapsed) rest)
                    | None =>
                        (Normal noCapacity,
                         World.mk (World.self (evicted key w))
                           (World.clock w + elapsed) rest)
                    end).
  { unfold checkTierCapacity, bind. fold (capacityKey tierName). fold key.
    rewrite getCached_eq, Hfresh.
    unfold tryCatch, bind, fetchJson. rewrite Hnetwork, Hnet. cbn [fst snd].
    rewrite Hsuccess, Hcapacity, Hclock.
    by destruct (property (Capacity.tiers c) tierName). }
  rewrite Hcall. cbv zeta. split.
  - intros capacity ->. cbn [fst snd]. split; [done|].
    intros now network Hnow.
    unfold checkTierCapacity, bind. fold (capacityKey tierName). fold key.
    rewrite getCached_eq.
    unfold fresh, evicted, later, withCache. simpl.
    rewrite lookup_insert_eq. simpl.
    by destruct (Z.ltb_spec now (World.clock w + elapsed + 60000)); [|lia].
  - intros ->. cbn [fst snd World.self]. split; [done|].
    unfold fresh in Hmiss. unfold evicted in *.
    destruct (cache (World.self w) !! key) as [entry|] eqn:Hentry; [|done].
    destruct (World.clock w <? CacheEntry.expiry entry) eqn:Hlt.
    + unfold fresh in Hfresh. by rewrite Hentry, Hlt in Hfresh.
    + simpl. apply lookup_delete_eq.
Qed.

End ManagerCaching.

Section ManagerUpgrades.
Import TierManager.

(** X10.  [requestUpgrade] asks [canUpgrade] first.  When the affiliate is
    not eligible it sends no upgrade request and fails with the reason of
    [canUpgrade].  When the affiliate is eligible and the backend answers
    with success, it resolves to the new tier with the congratulation and
    empties the whole cache, so that no tier status and no capacity is
    served from the cache afterwards. *)
Theorem requestUpgrade_validates_then_clears
    (w granted : World.t TierManager.t) (affiliateId : option string)
    (eligibility : Eligibility.t) :
  canUpgrade affiliateId w = (Normal eligibility, granted) ->
  (Eligibility.canUpgrade eligibility = false ->
   requestUpgrade affiliateId w
   = (Normal (UpgradeResult.mk false None (Eligibility.reason eligibility)),
      granted))
  /\ (Eligibility.canUpgrade eligibility = true ->
      forall elapsed data rest,
        World.network granted = (elapsed, Json data) :: rest ->
        Data.success data = true ->
        let upgraded := snd (requestUpgrade affiliateId w) in
        fst (requestUpgrade affiliateId w)
        = Normal (UpgradeResult.mk true (Data.newTier data)
                    (Some ("Congratulations! You've been upgraded to " +:+
                           orDefault (Data.newTier data) "undefined")))
        /\ cache (World.self upgraded) = ∅
        /\ World.network upgraded = rest
        /\ forall key now network,
             fresh key (later upgraded now network) = None).
Proof.
  intros Hcan. unfold requestUpgrade, bind. rewrite Hcan. split.
  - by intros ->.
  - intros -> elapsed data rest Hnet Hsuccess. cbn [negb].
    unfold tryCatch, bind, fetchJson. rewrite Hnet. cbn [fst snd].
    rewrite Hsuccess. cbv zeta. cbn.
    repeat split.
Qed.

(** X11.  [getRemainingClicks] of the manager is never negative: it is
    the affiliate's [clicksRemaining] when that is positive and 0
    otherwise, and 0 when the tier status cannot be had. *)
Theorem getRemainingClicks_never_negative
    (w : World.t TierManager.t) (affiliateId : option string) :
  (exists remaining,
      fst (getRemainingClicks affiliateId w) = Normal remaining
      /\ 0 <= remaining)
  /\ (forall tier,
      tierKnown affiliateId w tier ->
      fst (getRemainingClicks affiliateId w)
      = Normal (Z.max 0 (TierData.clicksRemaining tier)))
  /\ (fst (getCurrentTier affiliateId w) = Normal None ->
      fst (getRemainingClicks affiliateId w) = Normal 0).
Proof.
  unfold tierKnown, getRemainingClicks, isActionAllowed, bind.
  destruct (total_getCurrentTier affiliateId w) as ([tier|] & after & ->);
    cbn [fst snd].
  - change (String.eqb "click" "click") with true. cbv iota.
    destruct (Z.leb_spec (TierData.clicksRemaining tier) 0); cbn.
    + split; [exists 0; by split|]. split; [|discriminate].
      intros ? [= <-]. f_equal. lia.
    + split; [eexists; split; [reflexivity | lia]|]. split; [|discriminate].
      intros ? [= <-]. f_equal. lia.
  - cbn. split; [exists 0; by split|]. split; [discriminate | done].
Qed.

End ManagerUpgrades.

Section ManagerProgress.
Import TierManager.




(** X13.  [getNextTier] follows the order of the configuration: the tier
    it names is never NEWBIE, is configured with the priority of the
    current tier plus one, and is named only for a tier that has an
    upgrade requirement.  It names no tier exactly for ELITE and for a
    name that is none of the four tiers; a configured tier for which it
    names none has no upgrade requirement. *)
Theorem getNextTier_follows_priority (currentTier : string) :
  (getNextTier currentTier = None
   <-> currentTier = "ELITE" \/ ~ In currentTier tierOrder)
  /\ (forall next,
      getNextTier currentTier = Some next ->
      next <> "NEWBIE"
      /\ exists tier tier',
           property CONFIG.TIERS currentTier = Some tier
           /\ property CONFIG.TIERS next = Some tier'
           /\ TierDefinition.priority tier' = TierDefinition.priority tier + 1
           /\ noUpgradeRequirement (TierDefinition.salesRequiredForUpgrade tier)
              = false)
  /\ (forall tier,
      property CONFIG.TIERS currentTier = Some tier ->
      getNextTier currentTier = None ->
      TierDefinition.salesRequiredForUpgrade tier = None).
Proof.
  unfold getNextTier, indexOf, tierOrder, CONFIG.TIERS.
  cbn [indexOfFrom property length In].
  destruct (String.eqb_spec "NEWBIE" currentTier) as [<-|Hn].
  { cbn. split; [split; [discriminate | intros [? | H]; [done | tauto]]|].
    split; [|discriminate].
    intros next [= <-]. split; [discriminate|].
    by exists CONFIG.NEWBIE, CONFIG.ACTIVE. }
  destruct (String.eqb_spec "ACTIVE" currentTier) as [<-|Ha].
  { cbn. split; [split; [discriminate | intros [? | H]; [done | tauto]]|].
    split; [|discriminate].
    intros next [= <-]. split; [discriminate|].
    by exists CONFIG.ACTIVE, CONFIG.PRO. }
  destruct (String.eqb_spec "PRO" currentTier) as [<-|Hp].
  { cbn. split; [split; [discriminate | intros [? | H]; [done | tauto]]|].
    split; [|discriminate].
    intros next [= <-]. split; [discriminate|].
    by exists CONFIG.PRO, CONFIG.ELITE. }
  destruct (String.eqb_spec "ELITE" currentTier) as [<-|He].
  { cbn. split; [split; [by left | done]|].
    split; [discriminate|]. by intros tier [= <-]. }
  cbn. split; [split; [intros _; right; tauto | done]|].
  split; discriminate.
Qed.

End ManagerProgress.

(** ** Auth: the limit on login attempts *)

Section Limiter.
Import Auth.

Lemma checkRateLimit_eq (email : string) (w : World.t Auth.t) :
  checkRateLimit email w
  = (Normal (Z.of_nat (length (recentAt (World.clock w)
                                 (attemptsOf (World.self w) email)))
             <? SECURITY.maxLoginAttempts),
     World.mk
       (Auth.mk (<[email := recentAt (World.clock w)
                              (attemptsOf (World.self w) email)]>
                   (loginAttempts (World.self w))))
       (World.clock w) (World.network w)).
Proof. reflexivity. Qed.

Lemma recordLoginAttempt_eq (email : string) (w : World.t Auth.t) :
  recordLoginAttempt email w
  = (Normal tt,
     World.mk
       (Auth.mk (<[email := (attemptsOf (World.self w) email
                             ++ [World.clock w])%list]>
                   (loginAttempts (World.self w))))
       (World.clock w) (World.network w)).
Proof. reflexivity. Qed.

Lemma attemptsOf_insert (a : gmap string (list Z)) (email other : string)
    (attempts : list Z) :
  attemptsOf (Auth.mk (<[email := attempts]> a)) other
  = if decide (email = other) then attempts else attemptsOf (Auth.mk a) other.
Proof.
  unfold attemptsOf. simpl. rewrite lookup_insert. by case_decide.
Qed.

Lemma recordAll_attempts (email : string) (times : list Z) :
  forall w,
    attemptsOf (World.self (recordAll email times w)) email
    = (attemptsOf (World.self w) email ++ times)%list
    /\ forall other, other <> email ->
         attemptsOf (World.self (recordAll email times w)) other
         = attemptsOf (World.self w) other.
Proof.
  induction times as [|t times IH]; intros w.
  - simpl. by rewrite app_nil_r.
  - change (recordAll email (t :: times) w)
      with (recordAll email times (recordAt email w t)).
    destruct (IH (recordAt email w t)) as [-> Hother].
    assert (Hstep : forall other,
               attemptsOf (World.self (recordAt email w t)) other
               = if decide (email = other)
                 then (attemptsOf (World.self w) email ++ [t])%list
                 else attemptsOf (World.self w) other).
    { intros other. unfold recordAt, later. rewrite recordLoginAttempt_eq.
      cbn [snd World.self World.clock]. rewrite attemptsOf_insert.
      by destruct (World.self w). }
    split.
    + rewrite Hstep. destruct (decide (email = email)); [|done].
      by rewrite <- app_assoc.
    + intros other Hne. rewrite Hother by done. rewrite Hstep.
      by destruct (decide (email = other)).
Qed.

Lemma recentAt_all (now : Z) (attempts : list Z) :
  Forall (fun t => now - t < SECURITY.rateLimitWindow) attempts ->
  recentAt now attempts = attempts.
Proof.
  unfold recentAt. induction 1 as [|t l Ht _ IH]; [done|].
  rewrite filter_cons_True by done. by rewrite IH.
Qed.

Lemma recentAt_none (now : Z) (attempts : list Z) :
  Forall (fun t => SECURITY.rateLimitWindow <= now - t) attempts ->
  recentAt now attempts = [].
Proof.
  unfold recentAt. induction 1 as [|t l Ht _ IH]; [done|].
  rewrite filter_cons_False by lia. exact IH.
Qed.

(** X14.  The limiter counts, for an email, the recorded attempts that are
    less than 15 minutes old at the time of the check, and allows the
    login exactly when there are fewer than 5.  So after five or more
    failed logins that are all still within the window, whatever was
    recorded before, the email is refused; and once every recorded attempt
    is 15 minutes old or more it is allowed again and its list is emptied.
    A check keeps exactly the attempts that still count. *)
Theorem login_attempts_limited (w : World.t Auth.t) (email : string)
    (times : list Z) (now : Z) :
  let recorded := recordAll email times w in
  let attempts := (attemptsOf (World.self w) email ++ times)%list in
  (allowedAt email now recorded
   = Normal (Z.of_nat (length (recentAt now attempts)) <? 5))
  /\ attemptsOf (World.self (checkedAt email now recorded)) email
     = recentAt now attempts
  /\ (Forall (fun t => now - t < SECURITY.rateLimitWindow) times ->
      (5 <= length times)%nat ->
      allowedAt email now recorded = Normal false)
  /\ (Forall (fun t => SECURITY.rateLimitWindow <= now - t) attempts ->
      allowedAt email now recorded = Normal true
      /\ attemptsOf (World.self (checkedAt email now recorded)) email = []).
Proof.
  cbv zeta. destruct (recordAll_attempts email times w) as [Hrecorded _].
  unfold allowedAt, checkedAt, later. rewrite checkRateLimit_eq.
  cbn [fst snd World.self World.clock]. rewrite Hrecorded.
  rewrite attemptsOf_insert. destruct (decide (email = email)); [|done].
  split; [done|]. split; [done|]. split.
  - intros Hrecent Hmany. f_equal. apply Z.ltb_ge.
    unfold recentAt. rewrite filter_app, length_app.
    fold (recentAt now times). rewrite (recentAt_all now times Hrecent).
    change SECURITY.maxLoginAttempts with 5. lia.
  - intros Hold. by rewrite (recentAt_none now _ Hold).
Qed.


End Limiter.

(** ** The further properties at concrete inputs *)

(** Clicks at 98%: the status is critical and the signups pause. *)
Lemma critical_status_pauses_signups_witness :
  CapacityMonitor.shouldPauseSignups (clicksAt 4900 5000) = true.
Proof. apply critical_status_pauses_signups. reflexivity. Defined.

(** Signups are open, so PRO is at most 95% full. *)
Lemma open_signups_bound_every_tier_witness :
  (TierCapacity.percentFull (CapacityMonitor.getTierCapacity quietMonitor "PRO")
   <= 95)%Q.
Proof.
  apply (proj1 (open_signups_bound_every_tier quietMonitor tiedSnapshot
                  eq_refl eq_refl)).
  left. reflexivity.
Defined.

Lemma recommended_tier_has_most_room_witness :
  0 < TierCapacity.available
        (CapacityMonitor.getTierCapacity quietMonitor
           (CapacityMonitor.getRecommendedTier quietMonitor)).
Proof.
  assert (Hunique : uniqueTiers tiedSnapshot).
  { unfold uniqueTiers. simpl. apply NoDup_cons. split.
    - intros H. apply elem_of_cons in H as [H | H]; [discriminate|].
      by apply elem_of_nil in H.
    - apply NoDup_singleton. }
  destruct (recommended_tier_has_most_room quietMonitor tiedSnapshot
              eq_refl Hunique) as [[Hnone _] | (_ & Hroom & _)].
  - apply Forall_cons in Hnone as [Hnone _]. vm_compute in Hnone. done.
  - exact Hroom.
Defined.


Lemma successful_refresh_replaces_snapshot_witness :
  fst (CapacityMonitor.fetchCapacity scenarioWorld)
  = Normal (Some scenarioSnapshot)
  /\ CapacityMonitor.getCurrentCapacity
       (World.self (snd (CapacityMonitor.fetchCapacity scenarioWorld)))
     = Some scenarioSnapshot.
Proof.
  destruct (successful_refresh_replaces_snapshot scenarioWorld 120
              scenarioData [] eq_refl eq_refl) as (Hresult & Hheld & _).
  by split.
Defined.


(** The status fetched at 1080 is served at 2000 with no reply to come. *)
Lemma tier_status_served_from_cache_witness :
  fst (TierManager.getCurrentTier None
         (later (snd (TierManager.getCurrentTier None activeWorld)) 2000 []))
  = Normal (Some (TierManager.tierDataOf activeStatus)).
Proof.
  destruct (tier_status_served_from_cache activeWorld None 80 activeStatus
              [reply proFullSnapshot] eq_refl eq_refl eq_refl eq_refl)
    as (_ & Hhit & _).
  rewrite (Hhit 2000 []); [reflexivity|]. simpl. lia.
Defined.

Lemma tier_capacity_cached_one_minute_witness :
  fst (TierManager.checkTierCapacity "ELITE"
         (later (snd (TierManager.checkTierCapacity "ELITE" eliteFirstWorld))
            50000 []))
  = Normal (TierCapacity.mk 8 10 2 80).
Proof.
  destruct (tier_capacity_cached_one_minute eliteFirstWorld "ELITE" 80
              (Data.mk true (Some eliteFirstSnapshot) None None None None
                 None None None None None None None None)
              [] eliteFirstSnapshot eq_refl eq_refl eq_refl eq_refl)
    as (Hlisted & _).
  destruct (Hlisted (TierCapacity.mk 8 10 2 80) eq_refl) as (_ & Hhit).
  rewrite (Hhit 50000 []); [reflexivity|]. simpl. lia.
Defined.

(** PRO is full: no upgrade request is sent. *)
Lemma requestUpgrade_validates_then_clears_witness :
  TierManager.requestUpgrade None activeWorld
  = (Normal (UpgradeResult.mk false None (Some "PRO tier is currently full")),
     snd (TierManager.canUpgrade None activeWorld)).
Proof.
  apply (proj1 (requestUpgrade_validates_then_clears activeWorld
                  (snd (TierManager.canUpgrade None activeWorld)) None
                  (Eligibility.mk false (Some "PRO tier is currently full")
                     (Some true) None None None None None)
                  eq_refl)).
  reflexivity.
Defined.

Lemma getRemainingClicks_never_negative_witness :
  fst (TierManager.getRemainingClicks None activeWorld) = Normal (Z.max 0 0).
Proof.
  apply (proj1 (proj2 (getRemainingClicks_never_negative activeWorld None))
           (TierManager.tierDataOf activeStatus)).
  reflexivity.
Defined.


Lemma getNextTier_follows_priority_witness :
  "PRO" <> "NEWBIE"
  /\ exists tier tier',
       property CONFIG.TIERS "ACTIVE" = Some tier
       /\ property CONFIG.TIERS "PRO" = Some tier'
       /\ TierDefinition.priority tier' = TierDefinition.priority tier + 1
       /\ TierManager.noUpgradeRequirement
            (TierDefinition.salesRequiredForUpgrade tier) = false.
Proof.
  apply (proj1 (proj2 (getNextTier_follows_priority "ACTIVE")) "PRO").
  reflexivity.
Defined.

(** Five failed logins within five seconds: the sixth is refused. *)
Lemma login_attempts_limited_witness :
  allowedAt "a@example.org" 5000
    (recordAll "a@example.org" [0; 1000; 2000; 3000; 4000] limiterWorld)
  = Normal false.
Proof.
  apply (login_attempts_limited limiterWorld "a@example.org"
           [0; 1000; 2000; 3000; 4000] 5000).
  - repeat constructor.
  - simpl. lia.
Defined.

